(** * Kindle highlights: extractor, poller and export store

    A shallow embedding of the two parser modules
    ([kindle_highlights/parser.py], the package, and [src/parser.py], the
    flat module), of the scroll-until-stable loop of [get_book_list] and of
    the JSON export store of [scraper.py], followed by the properties of
    the specification that concern them. *)

From Stdlib Require Import ZArith Ascii String List Bool Lia DecimalString DecimalNat.
From stdpp Require Import gmap strings list fin_maps pretty.

Local Open Scope string_scope.

(** ** Python's [str] builtins used by the sources

    Characters are code points below 256 ([ascii]). *)
Module Py.

(** [str.isspace] on one character: TAB..CR, FS..US, SPACE, NEL, NBSP. *)
Definition isspace (c : ascii) : bool :=
  let n := nat_of_ascii c in
  ((9 <=? n)%nat && (n <=? 13)%nat) || ((28 <=? n)%nat && (n <=? 32)%nat)
  || (n =? 133)%nat || (n =? 160)%nat.

(** [c.isdigit()] for the pattern class [\d]. *)
Definition isdigit (c : ascii) : bool :=
  let n := nat_of_ascii c in (48 <=? n)%nat && (n <=? 57)%nat.

Definition digit_value (c : ascii) : Z := Z.of_nat (nat_of_ascii c - 48).

(** Truthiness of a string: [if s] holds for the non-empty ones. *)
Definition truthy (s : string) : bool :=
  match s with EmptyString => false | String _ _ => true end.

Fixpoint lstrip (s : string) : string :=
  match s with
  | EmptyString => EmptyString
  | String c s' => if isspace c then lstrip s' else s
  end.

Fixpoint rstrip (s : string) : string :=
  match s with
  | EmptyString => EmptyString
  | String c s' =>
      match rstrip s' with
      | EmptyString => if isspace c then EmptyString else String c EmptyString
      | r => String c r
      end
  end.

Definition strip (s : string) : string := rstrip (lstrip s).

Definition startswith (s p : string) : bool := String.prefix p s.

Definition endswith (s p : string) : bool :=
  let n := String.length s in
  let k := String.length p in
  (k <=? n)%nat && String.eqb (String.substring (n - k) k s) p.

Fixpoint drop (n : nat) (s : string) : string :=
  match n, s with
  | O, _ => s
  | S _, EmptyString => EmptyString
  | S n', String _ s' => drop n' s'
  end.

(** [s.removeprefix(p)] *)
Definition removeprefix (s p : string) : string :=
  if startswith s p then drop (String.length p) s else s.

(** [s.replace(old, new)] for a non-empty [old]: the occurrences are found
    from the left and do not overlap.  [skip] counts the characters of an
    occurrence still to be dropped. *)
Fixpoint replace_from (old new : string) (skip : nat) (s : string) : string :=
  match s with
  | EmptyString => EmptyString
  | String c s' =>
      match skip with
      | S k => replace_from old new k s'
      | O =>
          if String.prefix old s
          then new ++ replace_from old new (String.length old - 1) s'
          else String c (replace_from old new 0 s')
      end
  end.

Definition replace (s old new : string) : string := replace_from old new 0 s.

(** The leading run of decimal digits of [s], read as a number, with the
    count of digits read. *)
Fixpoint read_digits (acc : Z) (n : nat) (s : string) : Z * nat :=
  match s with
  | String c s' =>
      if isdigit c then read_digits (10 * acc + digit_value c)%Z (S n) s'
      else (acc, n)
  | EmptyString => (acc, n)
  end.

(** [re.search(label + r"(\d+)", text)] followed by [int(m.group(1))]: the
    leftmost place where [label] is followed by a digit, and the whole run
    of digits there.  The number is the one [int] returns for a run of at
    most 4300 digits ([max_str_digits]); for a longer run [int] raises
    [ValueError], which this function does not show. *)
Fixpoint search_number (label : string) (text : string) : option Z :=
  let here :=
    if String.prefix label text then
      match read_digits 0%Z 0%nat (drop (String.length label) text) with
      | (_, O) => None
      | (v, S _) => Some v
      end
    else None in
  match here with
  | Some v => Some v
  | None =>
      match text with
      | EmptyString => None
      | String _ text' => search_number label text'
      end
  end.

(** The digits of an [int] literal: groups of digits separated by single
    underscores.  [prev] tells whether the previous character was a digit. *)
Fixpoint int_digits (acc : Z) (prev : bool) (s : string) : option Z :=
  match s with
  | EmptyString => if prev then Some acc else None
  | String c s' =>
      if isdigit c then int_digits (10 * acc + digit_value c)%Z true s'
      else if Ascii.eqb c "_" then (if prev then int_digits acc false s' else None)
      else None
  end.

(** The number of digits of a literal. *)
Fixpoint count_digits (s : string) : nat :=
  match s with
  | EmptyString => 0
  | String c s' => (if isdigit c then 1 else 0) + count_digits s'
  end.

(** The most digits [int] converts ([sys.get_int_max_str_digits()]). *)
Definition max_str_digits : nat := 4300.

(** [int(s)]: [None] stands for [ValueError], raised also for a literal
    of more than [max_str_digits] digits. *)
Definition int (s : string) : option Z :=
  if (max_str_digits <? count_digits (strip s))%nat then None
  else
    match strip s with
    | String "-" d => Z.opp <$> int_digits 0%Z false d
    | String "+" d => int_digits 0%Z false d
    | d => int_digits 0%Z false d
    end.

End Py.

(** ** The document tree of [bs4]

    What [BeautifulSoup(html, "html.parser")] returns: a tree of tags and
    strings.  A tag carries its name, its single-valued attributes as a
    dictionary, and the value of its multi-valued [class] attribute as the
    list of class names ([[]] when the attribute is absent).  The soup
    object itself is a tag named ["[document]"] without attributes. *)
Module Bs4.

#[warnings="-register-all"]
Inductive PageElement : Type :=
| NavigableString (s : string)
| Tag (name : string) (attrs : gmap string string) (class_ : list string)
      (contents : list PageElement).

Definition is_tag (e : PageElement) : bool :=
  match e with Tag _ _ _ _ => true | NavigableString _ => false end.

Definition name (e : PageElement) : string :=
  match e with Tag n _ _ _ => n | NavigableString _ => "" end.

Definition attrs (e : PageElement) : gmap string string :=
  match e with Tag _ a _ _ => a | NavigableString _ => ∅ end.

(** [tag.get("class", [])] *)
Definition get_class (e : PageElement) : list string :=
  match e with Tag _ _ c _ => c | NavigableString _ => [] end.

Definition contents (e : PageElement) : list PageElement :=
  match e with Tag _ _ _ cs => cs | NavigableString _ => [] end.

(** [tag.get(key)] and [tag.get(key, default)] *)
Definition get (e : PageElement) (key : string) : option string :=
  attrs e !! key.

Definition get_default (e : PageElement) (key dflt : string) : string :=
  default dflt (get e key).

(** [tag.descendants]: everything below the tag, in document order. *)
Fixpoint descendants (e : PageElement) : list PageElement :=
  match e with
  | NavigableString _ => []
  | Tag _ _ _ cs => flat_map (fun c => c :: descendants c) cs
  end.

(** The strings below an element, in document order. *)
Fixpoint all_strings (e : PageElement) : list string :=
  match e with
  | NavigableString s => [s]
  | Tag _ _ _ cs => flat_map all_strings cs
  end.

Definition join (l : list string) : string :=
  fold_right String.append "" l.

(** [tag.get_text()] *)
Definition get_text (e : PageElement) : string := join (all_strings e).

(** [tag.get_text(strip=True)]: every string is stripped, and the ones
    that become empty are left out. *)
Definition get_text_strip (e : PageElement) : string :=
  join (List.filter Py.truthy (Py.strip <$> all_strings e)).

(** *** Filters of [find] and [find_all] *)

Definition named (n : string) (e : PageElement) : bool :=
  is_tag e && String.eqb (name e) n.

(** [id=v] *)
Definition with_id (v : string) (e : PageElement) : bool :=
  match get e "id" with Some i => String.eqb i v | None => false end.

(** [id=True] *)
Definition with_some_id (e : PageElement) : bool :=
  match get e "id" with Some _ => true | None => false end.

(** [class_=c], for a class name [c] without white space: some class of
    the tag is [c]. *)
Definition with_class (c : string) (e : PageElement) : bool :=
  existsb (String.eqb c) (get_class e).

Definition matching (p : PageElement -> bool) (l : list PageElement)
  : list PageElement :=
  List.filter (fun e => is_tag e && p e) l.

Definition find_all (e : PageElement) (p : PageElement -> bool)
  : list PageElement :=
  matching p (descendants e).

Definition find (e : PageElement) (p : PageElement -> bool)
  : option PageElement :=
  head (find_all e p).

(** *** Where an element stands in the tree

    [find_parent], [find_previous] and [find_next_sibling] look around an
    element: at its ancestors (nearest first, up to the soup object), at
    the elements parsed before it (nearest first, ancestors included), and
    at the siblings after it. *)
Record Located : Type := mkLocated {
  elem : PageElement;
  parents : list PageElement;
  previous_elements : list PageElement;
  next_siblings : list PageElement
}.

(** The children [l] of a tag, walked one after the other by [walk_one];
    [ps] are the ancestors of the children, [prev] what was parsed before
    the first of them. *)
Definition walk_children
           (walk_one : list PageElement -> list PageElement -> PageElement ->
                       list PageElement -> list Located * list PageElement)
           (ps : list PageElement)
  : list PageElement -> list PageElement -> list Located * list PageElement :=
  fix children (prev l : list PageElement) {struct l} :=
    match l with
    | [] => ([], prev)
    | c :: l' =>
        let '(a, p1) := walk_one ps prev c l' in
        let '(b, p2) := children p1 l' in
        ((a ++ b)%list, p2)
    end.

(** Walks [e] in document order; [prev] holds what was parsed before [e],
    and comes back extended with [e] and what is below it. *)
Fixpoint walk (ps prev : list PageElement) (e : PageElement)
         (sibs : list PageElement) {struct e}
  : list Located * list PageElement :=
  let here := mkLocated e ps prev sibs in
  match e with
  | NavigableString _ => ([here], e :: prev)
  | Tag _ _ _ cs =>
      let '(below, prev') := walk_children walk (e :: ps) (e :: prev) cs in
      (here :: below, prev')
  end.

(** The descendants of the soup object, each with its surroundings. *)
Definition located (soup : PageElement) : list Located :=
  tail (fst (walk [] [] soup [])).

Definition find_parent (x : Located) (p : PageElement -> bool)
  : option PageElement :=
  head (matching p (parents x)).

Definition find_previous (x : Located) (p : PageElement -> bool)
  : option PageElement :=
  head (matching p (previous_elements x)).

Definition find_next_sibling (x : Located) (p : PageElement -> bool)
  : option PageElement :=
  head (matching p (next_siblings x)).

(** *** CSS selectors (soupsieve) *)

(** [tag.select(".c")], [tag.select("#i")], [tag.select("name")] are
    [find_all] with the corresponding filter. *)
Definition select (e : PageElement) (p : PageElement -> bool)
  : list PageElement := find_all e p.

Definition select_one (e : PageElement) (p : PageElement -> bool)
  : option PageElement := head (select e p).

(** [soup.select("A B")], the descendant combinator: the elements matching
    [B] that have an ancestor matching [A]. *)
Definition select_below (soup : PageElement)
           (anc p : PageElement -> bool) : list Located :=
  List.filter
    (fun x => is_tag (elem x) && p (elem x) && existsb (fun a => is_tag a && anc a) (parents x))
    (located soup).

(** *** Reasoning about trees *)

(** Induction on a tree, with the property known for the contents. *)
Fixpoint PageElement_tree_ind (P : PageElement -> Prop)
         (Hstring : forall s, P (NavigableString s))
         (Htag : forall n a c cs, Forall P cs -> P (Tag n a c cs))
         (e : PageElement) {struct e} : P e :=
  match e with
  | NavigableString s => Hstring s
  | Tag n a c cs =>
      Htag n a c cs
           ((fix all (l : list PageElement) : Forall P l :=
               match l with
               | [] => @List.Forall_nil _ P
               | x :: l' =>
                   @List.Forall_cons _ P x l' (PageElement_tree_ind P Hstring Htag x) (all l')
               end) cs)
  end.

(** No element below [soup] has the class [c]. *)
Definition lacks_class (c : string) (soup : PageElement) : bool :=
  forallb (fun e => negb (with_class c e)) (descendants soup).

End Bs4.

(** ** The records of the parsers *)

(** [Highlight]: both parser modules declare the same six fields. *)
Record Highlight : Type := mkHighlight {
  id : string;
  color : string;
  text : string;
  page : option Z;
  location : option Z;
  note : option string
}.

Record Book : Type := mkBook {
  asin : string;
  title : string;
  author : string;
  cover_url : string;
  highlights : list Highlight
}.

(** An entry of the library list: the dictionary with the keys ["asin"],
    ["title"], ["author"] and ["cover_url"] built by [parse_book_library]. *)
Record LibraryEntry : Type := mkLibraryEntry {
  entry_asin : string;
  entry_title : string;
  entry_author : string;
  entry_cover_url : string
}.

(** ** [kindle_highlights/parser.py] *)
Module PkgParser.
Import Bs4.

Fixpoint extract_color_from_classes (classes : list string) : string :=
  match classes with
  | [] => "yellow"
  | cls :: rest =>
      if Py.endswith cls "-yellow" then "yellow"
      else if Py.endswith cls "-blue" then "blue"
      else if Py.endswith cls "-pink" then "pink"
      else if Py.endswith cls "-orange" then "orange"
      else extract_color_from_classes rest
  end.

Definition extract_page_location (text : string) : option Z * option Z :=
  (Py.search_number "Page " text, Py.search_number "Location " text).

Section WithTreeBuilder.

(** [BeautifulSoup(html, "html.parser")] *)
Variable BeautifulSoup : string -> PageElement.

(** One round of the loop over [book_elements]; [None] is [continue]. *)
Definition library_entry (book_elem : PageElement) : option LibraryEntry :=
  let asin := get_default book_elem "id" "" in
  if negb (Py.truthy asin) then None
  else
    let title :=
      match find book_elem (fun e => named "h2" e && with_class "kp-notebook-searchable" e) with
      | Some title_elem => get_text_strip title_elem
      | None => ""
      end in
    let author_text :=
      match find book_elem (fun e => named "p" e && with_class "kp-notebook-searchable" e) with
      | Some author_elem => get_text_strip author_elem
      | None => ""
      end in
    let author :=
      if Py.startswith author_text "By: "
      then Py.replace author_text "By: " ""
      else author_text in
    let cover_url :=
      match find book_elem (fun e => named "img" e && with_class "kp-notebook-cover-image" e) with
      | Some img_elem => get_default img_elem "src" ""
      | None => ""
      end in
    Some (mkLibraryEntry asin title author cover_url).

Definition parse_book_library (html : string) : list LibraryEntry :=
  let soup := BeautifulSoup html in
  let each_book := fun e => named "div" e && with_class "kp-notebook-library-each-book" e in
  let book_elements :=
    match find soup (fun e => named "div" e && with_id "kp-notebook-library" e) with
    | Some library => find_all library each_book
    | None => find_all soup each_book
    end in
  omap library_entry book_elements.

(** One round of the loop over [annotation_blocks]; [None] is either
    [continue] or the final test failing. *)
Definition block_highlight (block : PageElement) : option Highlight :=
  let highlight_id := get_default block "id" "" in
  if negb (Py.truthy highlight_id) then None
  else
    match find block (fun e => named "div" e && with_class "kp-notebook-highlight" e) with
    | None => None
    | Some highlight_elem =>
        let classes := get_class highlight_elem in
        let color := extract_color_from_classes classes in
        let text :=
          match find highlight_elem (fun e => named "span" e && with_class "a-size-base-plus" e) with
          | Some text_elem => get_text_strip text_elem
          | None => ""
          end in
        let '(page, location) :=
          match find block (fun e => named "span" e && with_id "annotationHighlightHeader" e) with
          | Some header_elem => extract_page_location (get_text header_elem)
          | None => (None, None)
          end in
        let location :=
          match location with
          | Some l => Some l
          | None =>
              match find block (fun e => named "input" e && with_id "kp-annotation-location" e) with
              | Some location_input =>
                  match get location_input "value" with
                  | Some v => if Py.truthy v then Py.int v else None
                  | None => None
                  end
              | None => None
              end
          end in
        let note :=
          match find block (fun e => named "div" e && with_class "kp-notebook-note" e) with
          | Some note_elem =>
              match find note_elem (fun e => named "span" e && with_class "a-size-base-plus" e) with
              | Some note_text_elem => Some (get_text_strip note_text_elem)
              | None => None
              end
          | None => None
          end in
        if Py.truthy text && Py.truthy highlight_id
        then Some (mkHighlight highlight_id color text page location note)
        else None
    end.

Definition parse_annotations_html (html : string) : list Highlight :=
  let soup := BeautifulSoup html in
  match find soup (fun e => named "div" e && with_id "kp-notebook-annotations" e) with
  | None => []
  | Some annotations_container =>
      let annotation_blocks :=
        find_all annotations_container (fun e => named "div" e && with_some_id e) in
      omap block_highlight annotation_blocks
  end.

(** The loop looking for the author: the first metadata paragraph whose
    text is neither empty, nor the label, nor the access date. *)
Fixpoint first_author (ps : list PageElement) : string :=
  match ps with
  | [] => ""
  | p_elem :: rest =>
      let text := get_text_strip p_elem in
      if Py.truthy text
         && negb (Py.startswith text "Your Kindle Notes For:")
         && negb (Py.startswith text "Last accessed")
      then text
      else first_author rest
  end.

Definition parse_book_from_annotations_page (html : string) : option Book :=
  let soup := BeautifulSoup html in
  let asin :=
    match find soup (fun e => named "input" e && with_id "kp-notebook-annotations-asin" e) with
    | Some asin_input => get_default asin_input "value" ""
    | None => ""
    end in
  let title :=
    match find soup (fun e => named "h3" e && with_class "kp-notebook-metadata" e) with
    | Some title_elem => get_text_strip title_elem
    | None => ""
    end in
  let author :=
    first_author (find_all soup (fun e => named "p" e && with_class "kp-notebook-metadata" e)) in
  let cover_url :=
    match find soup (fun e => named "img" e && with_class "kp-notebook-cover-image-border" e) with
    | Some cover_elem => get_default cover_elem "src" ""
    | None => ""
    end in
  let highlights := parse_annotations_html html in
  if negb (Py.truthy asin) || negb (Py.truthy title) then None
  else Some (mkBook asin title author cover_url highlights).

End WithTreeBuilder.

End PkgParser.

(** ** [src/parser.py] *)
Module FlatParser.
Import Bs4.

Definition color_map : gmap string string :=
  list_to_map
    [("kp-notebook-highlight-yellow", "yellow");
     ("kp-notebook-highlight-blue", "blue");
     ("kp-notebook-highlight-pink", "pink");
     ("kp-notebook-highlight-orange", "orange")].

Fixpoint extract_color_from_classes (classes : list string) : string :=
  match classes with
  | [] => "yellow"
  | class_name :: rest =>
      match color_map !! class_name with
      | Some c => c
      | None => extract_color_from_classes rest
      end
  end.

Definition extract_page_location (text : string) : option Z * option Z :=
  (Py.search_number "Page " text, Py.search_number "Location " text).

Section WithTreeBuilder.

(** [BeautifulSoup(html_content, "html.parser")] and [html.unescape] *)
Variable BeautifulSoup : string -> PageElement.
Variable unescape : string -> string.

(** One round of the loop over [book_elements]. *)
Definition library_entry (book_element : PageElement) : LibraryEntry :=
  let asin := get_default book_element "id" "" in
  let searchables := select book_element (with_class "kp-notebook-searchable") in
  let title :=
    match searchables !! 0%nat with
    | Some s0 => unescape (get_text_strip s0)
    | None => ""
    end in
  let author :=
    match searchables !! 1%nat with
    | Some s1 =>
        let raw_author := get_text_strip s1 in
        unescape (Py.strip (Py.removeprefix raw_author "By:"))
    | None => ""
    end in
  let cover_url :=
    match select_one book_element (named "img") with
    | Some cover_element => get_default cover_element "src" ""
    | None => ""
    end in
  mkLibraryEntry asin title author cover_url.

Definition parse_book_library (html_content : string) : list LibraryEntry :=
  let soup := BeautifulSoup html_content in
  let book_elements := select soup (with_class "kp-notebook-library-each-book") in
  library_entry <$> book_elements.

(** One round of the loop over [highlight_elements]. *)
Definition element_highlight (element : Located) : Highlight :=
  let highlight_id :=
    let own := get_default (elem element) "id" "" in
    if Py.truthy own then own
    else
      match find_parent element with_some_id with
      | Some parent_with_id => get_default parent_with_id "id" ""
      | None => ""
      end in
  let text_element :=
    match select_one (elem element) (with_class "a-size-base-plus") with
    | Some t => t
    | None => elem element
    end in
  let text := unescape (get_text_strip text_element) in
  let classes := get_class (elem element) in
  let color := extract_color_from_classes classes in
  let header_element :=
    find_previous element
      (fun e => named "span" e && with_id "annotationHighlightHeader" e) in
  let '(page, location) :=
    extract_page_location
      (match header_element with Some h => get_text_strip h | None => "" end) in
  let note_element :=
    find_next_sibling element
      (fun e => named "div" e && with_class "kp-notebook-note" e) in
  let note_span :=
    match note_element with
    | Some n => select_one n (with_class "a-size-base-plus")
    | None => None
    end in
  let note :=
    match note_span with
    | Some n => Some (unescape (get_text_strip n))
    | None => None
    end in
  mkHighlight highlight_id color text page location note.

Definition parse_annotations_html (html_content : string) : list Highlight :=
  let soup := BeautifulSoup html_content in
  let highlight_elements :=
    select_below soup (with_id "kp-notebook-annotations")
                 (with_class "kp-notebook-highlight") in
  element_highlight <$> highlight_elements.

Definition parse_book_from_annotations_page (html_content : string)
  : option Book :=
  let soup := BeautifulSoup html_content in
  let book_title_element := select_one soup (with_class "kp-notebook-metadata") in
  let author_elements := select soup (with_class "kp-notebook-metadata") in
  match book_title_element, author_elements !! 2%nat with
  | Some title_element, Some author_element =>
      let book_title := unescape (get_text_strip title_element) in
      let author := unescape (get_text_strip author_element) in
      let cover_url :=
        match select_one soup (with_class "kp-notebook-cover-image-border") with
        | Some cover_element => get_default cover_element "src" ""
        | None => ""
        end in
      let asin :=
        match select_one soup (with_id "kp-notebook-annotations-asin") with
        | Some asin_input => get_default asin_input "value" ""
        | None => ""
        end in
      let highlights := parse_annotations_html html_content in
      Some (mkBook asin book_title author cover_url highlights)
  | _, _ => None
  end.

End WithTreeBuilder.

End FlatParser.

(** ** [scraper.py]

    The two scraper modules have the same scroll loop and the same store
    functions; the flat module only names the empty export
    ([_empty_export_data]) and lists [OSError] where the package lists its
    alias [IOError]. *)
Module Scraper.

(** *** The scroll loop of [get_book_list]

    [scrape_book_highlights] runs the same loop on the highlight count. *)
Record ScrollState : Type := mkScrollState {
  last_count : nat;
  stable_count : nat
}.

(** The body of the loop, once [current_count] has been read. *)
Definition observe (s : ScrollState) (current_count : nat) : ScrollState :=
  if (current_count =? last_count s)%nat
  then mkScrollState (last_count s) (stable_count s + 1)
  else mkScrollState current_count 0.

(** [while stable_count < 3].  [counts] are the values the page returns
    for the successive readings of the count; the result is the number of
    readings made when the loop exits, or [None] when the loop is still
    running after the last of them. *)
Fixpoint scroll_loop (s : ScrollState) (counts : list nat) (readings : nat)
  : option nat :=
  if (stable_count s <? 3)%nat then
    match counts with
    | [] => None
    | current_count :: rest => scroll_loop (observe s current_count) rest (S readings)
    end
  else Some readings.

Definition scroll_start : ScrollState := mkScrollState 0 0.

(** *** The stored dictionaries *)

Inductive JsonValue : Type :=
| JStr (s : string)
| JInt (z : Z).

(** [HighlightDict]: the keys ["page"], ["location"] and ["note"] are not
    required. *)
Record BookDict : Type := mkBookDict {
  bd_asin : string;
  bd_title : string;
  bd_author : string;
  bd_cover_url : string;
  bd_highlights : list (gmap string JsonValue)
}.

(** [ExportData]: [run] is a [dict[str, str | None]]. *)
Record ExportData : Type := mkExportData {
  run : gmap string (option string);
  books : list BookDict
}.

Definition highlight_to_dict (highlight : Highlight) : gmap string JsonValue :=
  let highlight_data : gmap string JsonValue :=
    <["text" := JStr (text highlight)]>
      (<["color" := JStr (color highlight)]>
         (<["id" := JStr (id highlight)]> ∅)) in
  let highlight_data :=
    match page highlight with
    | Some p => <["page" := JInt p]> highlight_data
    | None => highlight_data
    end in
  let highlight_data :=
    match location highlight with
    | Some l => <["location" := JInt l]> highlight_data
    | None => highlight_data
    end in
  match note highlight with
  | Some n => if Py.truthy n then <["note" := JStr n]> highlight_data else highlight_data
  | None => highlight_data
  end.

Definition book_to_dict (book : Book) : BookDict :=
  mkBookDict (asin book) (title book) (author book) (cover_url book)
             (highlight_to_dict <$> highlights book).

Definition get_existing_book_asins (data : ExportData) : gset string :=
  list_to_set (bd_asin <$> books data).

(** *** Files, clock and console *)

Inductive Exception : Type :=
| OSError (msg : string)
| JSONDecodeError (msg : string)
| UnicodeDecodeError (msg : string).

Definition str (e : Exception) : string :=
  match e with OSError m | JSONDecodeError m | UnicodeDecodeError m => m end.

(** What [open] followed by [json.load] makes of a path that exists. *)
Inductive File : Type :=
| Export (data : ExportData)
| Unreadable (e : Exception).

(** [clock n] is the [n]-th value of [datetime.now().isoformat() + "Z"],
    [ticks] the number of values read so far, [stdout] the lines printed,
    oldest first. *)
Record World : Type := mkWorld {
  files : gmap string File;
  clock : nat -> string;
  ticks : nat;
  stdout : list string
}.

Inductive Outcome (A : Type) : Type :=
| Returns (a : A) (w : World)
| Raises (e : Exception) (w : World).
Arguments Returns {A} a w.
Arguments Raises {A} e w.

Definition M (A : Type) : Type := World -> Outcome A.

Definition ret {A} (a : A) : M A := fun w => Returns a w.

Definition bind {A B} (m : M A) (k : A -> M B) : M B :=
  fun w =>
    match m w with
    | Returns a w' => k a w'
    | Raises e w' => Raises e w'
    end.

Notation "x <- m ;; k" := (bind m (fun x => k))
  (at level 100, m at next level, right associativity).
Notation "m ;;; k" := (bind m (fun _ => k))
  (at level 100, right associativity).

(** [try: m  except <the classes accepted by handles> as e: h e] *)
Definition try_except {A} (m : M A) (handles : Exception -> bool)
           (h : Exception -> M A) : M A :=
  fun w =>
    match m w with
    | Returns a w' => Returns a w'
    | Raises e w' => if handles e then h e w' else Raises e w'
    end.

Definition path_exists (path : string) : M bool :=
  fun w => Returns (bool_decide (is_Some (files w !! path))) w.

(** [with open(path, encoding="utf-8") as f: json.load(f)] *)
Definition read_json (path : string) : M ExportData :=
  fun w =>
    match files w !! path with
    | Some (Export data) => Returns data w
    | Some (Unreadable e) => Raises e w
    | None => Raises (OSError "No such file or directory") w
    end.

(** [Path(path).parent.mkdir(parents=True, exist_ok=True)] and the write
    of the file.  Neither is taken to fail: the path is taken to be one
    that can be written.  [files] holds what a read of a path gives; the
    directories that [mkdir] makes are not entered in it. *)
Definition write_json (path : string) (data : ExportData) : M unit :=
  fun w =>
    Returns tt (mkWorld (<[path := Export data]> (files w)) (clock w) (ticks w) (stdout w)).

Definition print (line : string) : M unit :=
  fun w => Returns tt (mkWorld (files w) (clock w) (ticks w) (stdout w ++ [line])).

Definition now_isoformat_Z : M string :=
  fun w => Returns (clock w (ticks w)) (mkWorld (files w) (clock w) (S (ticks w)) (stdout w)).

(** *** The store *)

Definition _empty_export_data : M ExportData :=
  ts <- now_isoformat_Z ;;
  ret (mkExportData {["timestamp" := Some ts]} []).

Definition load_existing_data (output_path : string) : M ExportData :=
  present <- path_exists output_path ;;
  if negb present then _empty_export_data
  else
    try_except (read_json output_path)
      (fun e => match e with
                | OSError _ | JSONDecodeError _ => true
                | UnicodeDecodeError _ => false
                end)
      (fun e =>
         print ("Warning: Could not load existing file " ++ output_path ++ ": " ++ str e) ;;;
         _empty_export_data).

Definition save_book_progressively (book : Book) (output_path : string) : M unit :=
  data <- load_existing_data output_path ;;
  let existing_asins : gset string := list_to_set (bd_asin <$> books data) in
  let book_dict := book_to_dict book in
  let count := pretty (length (highlights book)) in
  books' <-
    (if decide (asin book ∈ existing_asins) then
       let updated :=
         match list_find (fun existing_book => bd_asin existing_book = asin book) (books data) with
         | Some (i, _) => <[i := book_dict]> (books data)
         | None => books data
         end in
       print ("Updated book '" ++ title book ++ "' with " ++ count ++ " highlights") ;;;
       ret updated
     else
       print ("Added book '" ++ title book ++ "' with " ++ count ++ " highlights") ;;;
       ret (books data ++ [book_dict])%list) ;;
  ts <- now_isoformat_Z ;;
  write_json output_path (mkExportData (<["timestamp" := Some ts]> (run data)) books').

(** [export_to_json]: the batch export.  The loop appends the dictionary
    of each book to an empty list. *)
Definition export_to_json (books : list Book) (output_path : string) : M unit :=
  data <- _empty_export_data ;;
  let data := mkExportData (run data) (book_to_dict <$> books) in
  write_json output_path data ;;;
  print ("Exported " ++ pretty (length books) ++ " books to " ++ output_path).

(** The calls of [save_book_progressively] that the loop of
    [scrape_all_books] makes for the books it has scraped, in order. *)
Fixpoint save_each (books : list Book) (output_path : string) : M unit :=
  match books with
  | [] => ret tt
  | book :: rest =>
      save_book_progressively book output_path ;;;
      save_each rest output_path
  end.

(** *** What [save_book_progressively] writes

    The list of books it stores, given the list it loaded, and the line it
    prints. *)
Definition upserted (book : Book) (stored : list BookDict) : list BookDict :=
  if decide (asin book ∈ (list_to_set (bd_asin <$> stored) : gset string)) then
    match list_find (fun existing_book => bd_asin existing_book = asin book) stored with
    | Some (i, _) => <[i := book_to_dict book]> stored
    | None => stored
    end
  else (stored ++ [book_to_dict book])%list.

Definition report (book : Book) (stored : list BookDict) : string :=
  (if decide (asin book ∈ (list_to_set (bd_asin <$> stored) : gset string))
   then "Updated book '" else "Added book '")
  ++ title book ++ "' with " ++ pretty (length (highlights book)) ++ " highlights".

End Scraper.

(** ** [src/app.py]: the listing of the highlights

    What [list_highlights] makes of the cached export once
    [load_cached_export] has returned it. *)
Module App.
Import Scraper.

(** [{**highlight, "asin": ..., "title": ..., "author": ...}] *)
Definition enriched (book : BookDict) (highlight : gmap string JsonValue)
  : gmap string JsonValue :=
  <["author" := JStr (bd_author book)]>
    (<["title" := JStr (bd_title book)]>
       (<["asin" := JStr (bd_asin book)]> highlight)).

(** [list_highlights]: the run, the count and the enriched highlights of
    all books, in order. *)
Definition list_highlights (cached : ExportData)
  : gmap string (option string) * nat * list (gmap string JsonValue) :=
  let highlights :=
    flat_map (fun book => enriched book <$> bd_highlights book) (books cached) in
  (run cached, length highlights, highlights).

End App.

(** ** Sample documents

    The trees [bs4] builds for the documents used in the examples below, and
    a tree builder that knows them.  Any other input is taken as plain
    text: the empty string gives a soup without contents.  No sample holds
    an ampersand, so [html.unescape] leaves their strings as they are. *)
Module Samples.
Import Bs4.

Definition soup_of (contents : list PageElement) : PageElement :=
  Tag "[document]" ∅ [] contents.

Definition highlight_without_text_html : string :=
  "<div id='kp-notebook-annotations'><div class='kp-notebook-highlight'></div></div>".

Definition highlight_without_text : PageElement :=
  soup_of
    [Tag "div" {["id" := "kp-notebook-annotations"]} []
       [Tag "div" ∅ ["kp-notebook-highlight"] []]].

Definition book_page_without_asin_html : string :=
  "<p class='kp-notebook-metadata'>Your Kindle Notes For:</p><h3 class='kp-notebook-metadata'>Dune</h3><p class='kp-notebook-metadata'>Frank Herbert</p>".

Definition book_page_without_asin : PageElement :=
  soup_of
    [Tag "p" ∅ ["kp-notebook-metadata"] [NavigableString "Your Kindle Notes For:"];
     Tag "h3" ∅ ["kp-notebook-metadata"] [NavigableString "Dune"];
     Tag "p" ∅ ["kp-notebook-metadata"] [NavigableString "Frank Herbert"]].

Definition library_entry_without_id_html : string :=
  "<div class='kp-notebook-library-each-book'><h2 class='kp-notebook-searchable'>Dune</h2></div>".

Definition library_entry_without_id : PageElement :=
  soup_of
    [Tag "div" ∅ ["kp-notebook-library-each-book"]
       [Tag "h2" ∅ ["kp-notebook-searchable"] [NavigableString "Dune"]]].

Definition book_page_html : string :=
  "<input id='kp-notebook-annotations-asin' value='B00X57B4JG'/><p class='kp-notebook-metadata'>Your Kindle Notes For:</p><h3 class='kp-notebook-metadata'>Dune</h3><p class='kp-notebook-metadata'>Frank Herbert</p>".

Definition book_page : PageElement :=
  soup_of
    [Tag "input" (<["value" := "B00X57B4JG"]> {["id" := "kp-notebook-annotations-asin"]}) [] [];
     Tag "p" ∅ ["kp-notebook-metadata"] [NavigableString "Your Kindle Notes For:"];
     Tag "h3" ∅ ["kp-notebook-metadata"] [NavigableString "Dune"];
     Tag "p" ∅ ["kp-notebook-metadata"] [NavigableString "Frank Herbert"]].

Definition annotation_block_html : string :=
  "<div id='kp-notebook-annotations'><div id='QID1' class='a-row a-spacing-base'><span id='annotationHighlightHeader'>Blue highlight | Page 42 Location 283</span><div id='highlight-QID1' class='a-row kp-notebook-highlight kp-notebook-highlight-blue'><span id='highlight' class='a-size-base-plus'>Fear is the mind-killer.</span></div><div id='note-QID1' class='kp-notebook-note'><span id='note' class='a-size-base-plus'>Litany</span></div></div></div>".

Definition annotation_block : PageElement :=
  soup_of
    [Tag "div" {["id" := "kp-notebook-annotations"]} []
       [Tag "div" {["id" := "QID1"]} ["a-row"; "a-spacing-base"]
          [Tag "span" {["id" := "annotationHighlightHeader"]} []
             [NavigableString "Blue highlight | Page 42 Location 283"];
           Tag "div" {["id" := "highlight-QID1"]}
               ["a-row"; "kp-notebook-highlight"; "kp-notebook-highlight-blue"]
             [Tag "span" {["id" := "highlight"]} ["a-size-base-plus"]
                [NavigableString "Fear is the mind-killer."]];
           Tag "div" {["id" := "note-QID1"]} ["kp-notebook-note"]
             [Tag "span" {["id" := "note"]} ["a-size-base-plus"]
                [NavigableString "Litany"]]]]].

Definition BeautifulSoup (html : string) : PageElement :=
  if String.eqb html highlight_without_text_html then highlight_without_text
  else if String.eqb html annotation_block_html then annotation_block
  else if String.eqb html book_page_without_asin_html then book_page_without_asin
  else if String.eqb html library_entry_without_id_html then library_entry_without_id
  else if String.eqb html book_page_html then book_page
  else if String.eqb html "" then soup_of []
  else soup_of [NavigableString html].

Definition unescape (s : string) : string := s.

(** A store with no file, a clock and an empty console. *)
Definition clock (n : nat) : string := "2024-01-01T00:00:0" ++ pretty n ++ "Z".

Definition fresh_world : Scraper.World := Scraper.mkWorld ∅ clock 0 [].

Definition dune : Book :=
  mkBook "B00X57B4JG" "Dune" "Frank Herbert" ""
         [mkHighlight "h1" "yellow" "Fear is the mind-killer." (Some 0%Z) None (Some "")].

(** A store holding an export of two books, the second an earlier scrape
    of [dune] without highlights. *)
Definition emma_dict : Scraper.BookDict :=
  Scraper.mkBookDict "B000JQUT8S" "Emma" "Jane Austen" "" [].

Definition dune_dict_before : Scraper.BookDict :=
  Scraper.mkBookDict "B00X57B4JG" "Dune" "Frank Herbert" "" [].

Definition stored_export : Scraper.ExportData :=
  Scraper.mkExportData {["timestamp" := Some "2023-12-31T23:59:59Z"]}
                       [emma_dict; dune_dict_before].

Definition stored_world : Scraper.World :=
  Scraper.mkWorld {["data/highlights.json" := Scraper.Export stored_export]} clock 0 [].

(** A store whose file does not hold JSON. *)
Definition corrupt_world : Scraper.World :=
  Scraper.mkWorld
    {["data/highlights.json" := Scraper.Unreadable (Scraper.JSONDecodeError "Expecting value")]}
    clock 0 [].

Definition emma : Book := mkBook "B000JQUT8S" "Emma" "Jane Austen" "" [].

End Samples.

(** ** Notions used in the statements *)

(** A natural number written in decimal, as [str] and the f-strings write
    it. *)
Definition decimal (n : nat) : string := NilEmpty.string_of_uint (Nat.to_uint n).

(** [s] does not start with a digit. *)
Definition no_digit_first (s : string) : Prop :=
  match s with String c _ => Py.isdigit c = false | EmptyString => True end.

(** [cls] ends like a colour class. *)
Definition color_suffixed (cls : string) : bool :=
  Py.endswith cls "-yellow" || Py.endswith cls "-blue"
  || Py.endswith cls "-pink" || Py.endswith cls "-orange".

(** The note as the stored dictionary keeps it: an empty note is dropped. *)
Definition kept_note (n : option string) : option string :=
  match n with
  | Some s => if Py.truthy s then Some s else None
  | None => None
  end.

(** The values the scroll loop has compared after the readings [readings]:
    the readings, newest first, and the initial [last_count], 0. *)
Definition seen (readings : list nat) : list nat := rev readings ++ [0].

(** The state of the loop against the values seen, newest first:
    [last_count] is the newest, and the streak counts how many of the
    newest values repeat the one before. *)
Definition tracks (s : Scraper.ScrollState) (values : list nat) : Prop :=
  head values = Some (Scraper.last_count s)
  /\ forall j, j <= Scraper.stable_count s <->
               (j < length values
                /\ take (S j) values = replicate (S j) (Scraper.last_count s)).

(** ** Facts about trees and searches *)
Section TreeFacts.
Import Bs4.

Lemma in_descendants_tag n a c cs x :
  In x (descendants (Tag n a c cs)) <->
  exists child, In child cs /\ (x = child \/ In x (descendants child)).
Proof.
  simpl. rewrite in_flat_map.
  split; intros (child & Hc & Hx); exists child; split; auto.
  - destruct Hx as [->|Hx]; auto.
  - destruct Hx as [->|Hx]; [left|right]; auto.
Qed.

(** What is below a descendant is below the tag. *)
Lemma descendants_trans r : forall e x,
  In e (descendants r) -> In x (descendants e) -> In x (descendants r).
Proof.
  induction r as [s | n a c cs IH] using PageElement_tree_ind; intros e x He Hx.
  - destruct He.
  - apply in_descendants_tag in He as (child & Hc & He).
    apply in_descendants_tag. exists child. split; [exact Hc|]. right.
    destruct He as [->|He]; [exact Hx|].
    rewrite Forall_forall in IH. eapply IH; eauto.
    apply list_elem_of_In. exact Hc.
Qed.

Lemma walk_children_elems ps : forall cs prev,
  Forall (fun c => forall ps prev sibs,
              elem <$> fst (walk ps prev c sibs) = c :: descendants c) cs ->
  elem <$> fst (walk_children walk ps prev cs)
  = flat_map (fun c => c :: descendants c) cs.
Proof.
  induction cs as [|c cs IHcs]; intros prev Hall; [reflexivity|].
  apply Forall_cons_1 in Hall as [Hc Hcs].
  simpl. specialize (Hc ps prev cs).
  destruct (walk ps prev c cs) as [a p1].
  specialize (IHcs p1 Hcs).
  destruct (walk_children walk ps p1 cs) as [b p2].
  cbn [fst] in *. rewrite fmap_app, Hc, IHcs. reflexivity.
Qed.

(** The walk visits the element and then its descendants, in order. *)
Lemma walk_elems e : forall ps prev sibs,
  elem <$> fst (walk ps prev e sibs) = e :: descendants e.
Proof.
  induction e as [s | n a c cs IH] using PageElement_tree_ind; intros ps prev sibs.
  - reflexivity.
  - simpl.
    pose proof (walk_children_elems (Tag n a c cs :: ps) cs (Tag n a c cs :: prev) IH) as H.
    destruct (walk_children walk (Tag n a c cs :: ps) (Tag n a c cs :: prev) cs)
      as [below prev'].
    cbn [fst] in *. rewrite fmap_cons. cbn [elem]. f_equal. exact H.
Qed.

Lemma located_elems soup : elem <$> located soup = descendants soup.
Proof.
  unfold located.
  pose proof (walk_elems soup [] [] []) as H.
  destruct (fst (walk [] [] soup [])) as [|x l]; [discriminate|].
  rewrite fmap_cons in H. injection H as _ H. exact H.
Qed.

Lemma find_all_In e p x :
  In x (find_all e p) <-> In x (descendants e) /\ is_tag x = true /\ p x = true.
Proof.
  unfold find_all, matching. rewrite filter_In, andb_true_iff. reflexivity.
Qed.

Lemma find_Some e p x :
  find e p = Some x -> In x (descendants e) /\ p x = true.
Proof.
  unfold find. intros H.
  assert (In x (find_all e p)) as Hin.
  { destruct (find_all e p) as [|y l]; [discriminate|].
    injection H as ->. left. reflexivity. }
  apply find_all_In in Hin. tauto.
Qed.

Lemma lacks_class_spec c soup :
  lacks_class c soup = true <->
  forall x, In x (descendants soup) -> with_class c x = false.
Proof.
  unfold lacks_class. rewrite forallb_forall.
  split; intros H x Hx; specialize (H x Hx).
  - apply negb_true_iff. exact H.
  - apply negb_true_iff. exact H.
Qed.

Lemma lacks_class_below c soup e :
  lacks_class c soup = true -> In e (descendants soup) ->
  lacks_class c e = true.
Proof.
  rewrite !lacks_class_spec. intros H He x Hx.
  apply H. eapply descendants_trans; eauto.
Qed.

(** A search for the class [c], with or without more conditions, finds
    nothing in a tree that lacks it. *)
Lemma find_all_lacking c e p :
  (forall x, p x = true -> with_class c x = true) ->
  lacks_class c e = true -> find_all e p = [].
Proof.
  intros Hp Hlacks.
  destruct (find_all e p) as [|x l] eqn:Hall; [reflexivity|].
  assert (In x (find_all e p)) as Hin by (rewrite Hall; left; reflexivity).
  apply find_all_In in Hin as (Hx & _ & Hpx).
  rewrite lacks_class_spec in Hlacks.
  specialize (Hp x Hpx). rewrite (Hlacks x Hx) in Hp. discriminate.
Qed.

Lemma find_lacking c e p :
  (forall x, p x = true -> with_class c x = true) ->
  lacks_class c e = true -> find e p = None.
Proof.
  intros Hp Hlacks. unfold find. rewrite (find_all_lacking c e p Hp Hlacks).
  reflexivity.
Qed.

Lemma select_below_lacking c soup anc :
  lacks_class c soup = true -> select_below soup anc (with_class c) = [].
Proof.
  intros Hlacks. unfold select_below.
  destruct (List.filter _ (located soup)) as [|x l] eqn:Hsel; [reflexivity|].
  assert (In x (x :: l)) as Hin by (left; reflexivity).
  rewrite <- Hsel in Hin. apply filter_In in Hin as [Hloc Hx].
  assert (In (elem x) (descendants soup)) as Hd.
  { rewrite <- located_elems. apply list_elem_of_In, list_elem_of_fmap.
    exists x. split; [reflexivity|]. apply list_elem_of_In. exact Hloc. }
  rewrite lacks_class_spec in Hlacks. rewrite (Hlacks _ Hd) in Hx.
  rewrite andb_false_r in Hx. discriminate.
Qed.

End TreeFacts.

Lemma truthy_nonempty s : Py.truthy s = true <-> s <> "".
Proof. destruct s; simpl; split; congruence. Qed.

(** ** The package parser keeps its records valid *)
Section PackageValid.
Import Bs4.
Variable BeautifulSoup : string -> PageElement.

Lemma pkg_block_highlight_valid block h :
  PkgParser.block_highlight block = Some h -> id h <> "" /\ text h <> "".
Proof.
  unfold PkgParser.block_highlight. intros H.
  destruct (Py.truthy (get_default block "id" "")) eqn:Hid; [|discriminate].
  cbn [negb] in H.
  destruct (find block _) as [highlight_elem|]; [|discriminate].
  match type of H with
  | context [let '(_, _) := ?m in _] => destruct m as [pg loc]
  end.
  match type of H with
  | (if ?c && _ then _ else _) = _ => destruct c eqn:Htext
  end; [|discriminate].
  cbn [andb] in H. injection H as <-. cbn [id text].
  split; apply truthy_nonempty; assumption.
Qed.

Lemma pkg_highlights_valid html h :
  In h (PkgParser.parse_annotations_html BeautifulSoup html) ->
  id h <> "" /\ text h <> "".
Proof.
  unfold PkgParser.parse_annotations_html.
  destruct (find (BeautifulSoup html) _) as [container|]; [|intros []].
  intros Hin. apply list_elem_of_In, list_elem_of_omap in Hin as (block & _ & Hb).
  eapply pkg_block_highlight_valid; eauto.
Qed.

Lemma pkg_book_valid html b :
  PkgParser.parse_book_from_annotations_page BeautifulSoup html = Some b ->
  asin b <> "" /\ title b <> "".
Proof.
  unfold PkgParser.parse_book_from_annotations_page. intros H.
  match type of H with
  | (if negb (Py.truthy ?a) || negb (Py.truthy ?t) then _ else _) = _ =>
      destruct (Py.truthy a) eqn:Ha; [destruct (Py.truthy t) eqn:Ht|]
  end; cbn [negb orb] in H; try discriminate.
  injection H as <-. cbn [asin title].
  split; apply truthy_nonempty; assumption.
Qed.

Lemma pkg_library_valid html entry :
  In entry (PkgParser.parse_book_library BeautifulSoup html) ->
  entry_asin entry <> "".
Proof.
  unfold PkgParser.parse_book_library. intros Hin.
  apply list_elem_of_In, list_elem_of_omap in Hin as (book_elem & _ & Hb).
  unfold PkgParser.library_entry in Hb.
  destruct (Py.truthy (get_default book_elem "id" "")) eqn:Hid; [|discriminate].
  cbn [negb] in Hb. injection Hb as <-. cbn [entry_asin].
  apply truthy_nonempty. exact Hid.
Qed.

End PackageValid.

(** ** The extractor *)

(** Both parsers on an annotation block with a header, a highlight and a
    note: the package parser names the highlight after the block, the flat
    parser after the highlight element; the rest is the same. *)
Example pkg_parse_annotations_html_block :
  PkgParser.parse_annotations_html Samples.BeautifulSoup Samples.annotation_block_html
  = [mkHighlight "QID1" "blue" "Fear is the mind-killer."
                 (Some 42%Z) (Some 283%Z) (Some "Litany")].
Proof. vm_compute. reflexivity. Qed.

Example flat_parse_annotations_html_block :
  FlatParser.parse_annotations_html Samples.BeautifulSoup Samples.unescape
                                    Samples.annotation_block_html
  = [mkHighlight "highlight-QID1" "blue" "Fear is the mind-killer."
                 (Some 42%Z) (Some 283%Z) (Some "Litany")].
Proof. vm_compute. reflexivity. Qed.

(** C1, at an input where the flat parser breaks it: for a document whose
    only highlight element is an empty [div] of class
    [kp-notebook-highlight] inside the annotations container, the flat
    [parse_annotations_html] returns one highlight, whose text is the empty
    string (its id is the one of the container). *)
Theorem flat_parse_annotations_html_emits_empty_text :
  FlatParser.parse_annotations_html Samples.BeautifulSoup Samples.unescape
                                    Samples.highlight_without_text_html
  = [mkHighlight "kp-notebook-annotations" "yellow" "" None None None].
Proof. vm_compute. reflexivity. Qed.

(** C6, at an input where the flat parser breaks it: for a page with three
    metadata elements and no [kp-notebook-annotations-asin] input, the flat
    [parse_book_from_annotations_page] returns a book whose asin is the
    empty string. *)
Theorem flat_parse_book_from_annotations_page_emits_empty_asin :
  FlatParser.parse_book_from_annotations_page Samples.BeautifulSoup Samples.unescape
                                              Samples.book_page_without_asin_html
  = Some (mkBook "" "Your Kindle Notes For:" "Frank Herbert" "" []).
Proof. vm_compute. reflexivity. Qed.

(** C7, at an input where the flat parser breaks it: for a library entry
    without an [id] attribute, the flat [parse_book_library] returns an
    entry whose asin is the empty string. *)
Theorem flat_parse_book_library_emits_empty_asin :
  FlatParser.parse_book_library Samples.BeautifulSoup Samples.unescape
                                Samples.library_entry_without_id_html
  = [mkLibraryEntry "" "Dune" "" ""].
Proof. vm_compute. reflexivity. Qed.

(** C5, at an input where the flat parser breaks it: on a book page whose
    metadata elements are the label paragraph, the [h3] heading with the
    title and the paragraph with the author, the package
    [parse_book_from_annotations_page] returns the book with the title of
    the heading, and the flat one a book whose title is the label
    ["Your Kindle Notes For:"], the first metadata element. *)
Theorem flat_parse_book_from_annotations_page_takes_label_as_title :
  PkgParser.parse_book_from_annotations_page Samples.BeautifulSoup Samples.book_page_html
  = Some (mkBook "B00X57B4JG" "Dune" "Frank Herbert" "" [])
  /\ FlatParser.parse_book_from_annotations_page Samples.BeautifulSoup Samples.unescape
                                                 Samples.book_page_html
     = Some (mkBook "B00X57B4JG" "Your Kindle Notes For:" "Frank Herbert" "" []).
Proof. split; vm_compute; reflexivity. Qed.

(** Where the two parsers cannot differ: on a document that has no
    element of the class the entry point looks for, both return the empty
    or absent result: [parse_book_library] without a
    [kp-notebook-library-each-book] element, [parse_annotations_html]
    without a [kp-notebook-highlight] element,
    [parse_book_from_annotations_page] without a [kp-notebook-metadata]
    element. *)
Theorem parsers_agree_without_marker_class
        (BeautifulSoup : string -> Bs4.PageElement) (unescape : string -> string)
        (html : string) :
  (Bs4.lacks_class "kp-notebook-library-each-book" (BeautifulSoup html) = true ->
   PkgParser.parse_book_library BeautifulSoup html = []
   /\ FlatParser.parse_book_library BeautifulSoup unescape html = [])
  /\ (Bs4.lacks_class "kp-notebook-highlight" (BeautifulSoup html) = true ->
      PkgParser.parse_annotations_html BeautifulSoup html = []
      /\ FlatParser.parse_annotations_html BeautifulSoup unescape html = [])
  /\ (Bs4.lacks_class "kp-notebook-metadata" (BeautifulSoup html) = true ->
      PkgParser.parse_book_from_annotations_page BeautifulSoup html = None
      /\ FlatParser.parse_book_from_annotations_page BeautifulSoup unescape html = None).
Proof.
  split; [|split]; intros Hlacks.
  - split.
    + unfold PkgParser.parse_book_library.
      destruct (Bs4.find (BeautifulSoup html) _) as [library|] eqn:Hlib.
      * apply find_Some in Hlib as [Hlib _].
        rewrite (find_all_lacking "kp-notebook-library-each-book"); [reflexivity| |].
        -- intros x Hx. apply andb_true_iff in Hx. tauto.
        -- eapply lacks_class_below; eauto.
      * rewrite (find_all_lacking "kp-notebook-library-each-book"); [reflexivity| |assumption].
        intros x Hx. apply andb_true_iff in Hx. tauto.
    + unfold FlatParser.parse_book_library, Bs4.select.
      rewrite (find_all_lacking "kp-notebook-library-each-book"); auto.
  - split.
    + unfold PkgParser.parse_annotations_html.
      destruct (Bs4.find (BeautifulSoup html) _) as [container|] eqn:Hc; [|reflexivity].
      apply find_Some in Hc as [Hc _].
      pose proof (lacks_class_below _ _ _ Hlacks Hc) as Hcl.
      destruct (omap _ _) as [|h l] eqn:Hom; [reflexivity|].
      assert (h ∈ h :: l) as Hin by left.
      rewrite <- Hom in Hin. apply list_elem_of_omap in Hin as (block & Hb & Hh).
      apply list_elem_of_In, find_all_In in Hb as (Hb & _).
      pose proof (lacks_class_below _ _ _ Hcl Hb) as Hbl.
      unfold PkgParser.block_highlight in Hh.
      rewrite (find_lacking "kp-notebook-highlight" block) in Hh.
      * destruct (negb _); discriminate.
      * intros x Hx. apply andb_true_iff in Hx. tauto.
      * exact Hbl.
    + unfold FlatParser.parse_annotations_html.
      rewrite select_below_lacking by assumption. reflexivity.
  - split.
    + unfold PkgParser.parse_book_from_annotations_page.
      rewrite (find_lacking "kp-notebook-metadata" (BeautifulSoup html)
                 (fun e => Bs4.named "h3" e && Bs4.with_class "kp-notebook-metadata" e)).
      * cbn [Py.truthy negb]. rewrite orb_true_r. reflexivity.
      * intros x Hx. apply andb_true_iff in Hx. tauto.
      * exact Hlacks.
    + unfold FlatParser.parse_book_from_annotations_page, Bs4.select_one, Bs4.select.
      rewrite (find_all_lacking "kp-notebook-metadata"); auto.
Qed.

Lemma parsers_agree_without_marker_class_witness :
  (PkgParser.parse_book_library Samples.BeautifulSoup "" = []
   /\ FlatParser.parse_book_library Samples.BeautifulSoup Samples.unescape "" = [])
  /\ (PkgParser.parse_annotations_html Samples.BeautifulSoup "" = []
      /\ FlatParser.parse_annotations_html Samples.BeautifulSoup Samples.unescape "" = [])
  /\ (PkgParser.parse_book_from_annotations_page Samples.BeautifulSoup "" = None
      /\ FlatParser.parse_book_from_annotations_page Samples.BeautifulSoup Samples.unescape "" = None).
Proof.
  destruct (parsers_agree_without_marker_class Samples.BeautifulSoup Samples.unescape "")
    as (H1 & H2 & H3).
  split; [|split]; [apply H1 | apply H2 | apply H3]; reflexivity.
Defined.

(** C8: on the empty input, for which the tree builder returns a soup
    without contents, the three entry points of both parsers return their
    empty or absent result. *)
Theorem empty_input_gives_empty_results
        (BeautifulSoup : string -> Bs4.PageElement) (unescape : string -> string) :
  BeautifulSoup "" = Bs4.Tag "[document]" ∅ [] [] ->
  PkgParser.parse_book_library BeautifulSoup "" = []
  /\ PkgParser.parse_annotations_html BeautifulSoup "" = []
  /\ PkgParser.parse_book_from_annotations_page BeautifulSoup "" = None
  /\ FlatParser.parse_book_library BeautifulSoup unescape "" = []
  /\ FlatParser.parse_annotations_html BeautifulSoup unescape "" = []
  /\ FlatParser.parse_book_from_annotations_page BeautifulSoup unescape "" = None.
Proof.
  intros Hempty.
  unfold PkgParser.parse_book_library, PkgParser.parse_annotations_html,
    PkgParser.parse_book_from_annotations_page, PkgParser.parse_annotations_html,
    FlatParser.parse_book_library, FlatParser.parse_annotations_html,
    FlatParser.parse_book_from_annotations_page, FlatParser.parse_annotations_html.
  rewrite Hempty. repeat split; reflexivity.
Qed.

Lemma empty_input_gives_empty_results_witness :
  PkgParser.parse_book_library Samples.BeautifulSoup "" = []
  /\ PkgParser.parse_annotations_html Samples.BeautifulSoup "" = []
  /\ PkgParser.parse_book_from_annotations_page Samples.BeautifulSoup "" = None
  /\ FlatParser.parse_book_library Samples.BeautifulSoup Samples.unescape "" = []
  /\ FlatParser.parse_annotations_html Samples.BeautifulSoup Samples.unescape "" = []
  /\ FlatParser.parse_book_from_annotations_page Samples.BeautifulSoup Samples.unescape "" = None.
Proof.
  apply (empty_input_gives_empty_results Samples.BeautifulSoup Samples.unescape).
  reflexivity.
Defined.

(** ** The scroll loop *)

Lemma observe_repeated s c :
  c = Scraper.last_count s ->
  Scraper.observe s c
  = Scraper.mkScrollState (Scraper.last_count s) (Scraper.stable_count s + 1).
Proof. intros ->. unfold Scraper.observe. rewrite Nat.eqb_refl. reflexivity. Qed.

Lemma observe_changed s c :
  c <> Scraper.last_count s -> Scraper.observe s c = Scraper.mkScrollState c 0.
Proof.
  intros Hne. unfold Scraper.observe.
  destruct (Nat.eqb_spec c (Scraper.last_count s)); [contradiction|reflexivity].
Qed.

Lemma observe_stable_count s c :
  Scraper.stable_count (Scraper.observe s c) <= Scraper.stable_count s + 1.
Proof. unfold Scraper.observe. destruct (_ =? _)%nat; cbn; lia. Qed.

(** The loop makes at least as many readings as the streak is short of 3. *)
Lemma scroll_loop_readings counts : forall s n m,
  Scraper.scroll_loop s counts n = Some m ->
  n + (3 - Scraper.stable_count s) <= m.
Proof.
  induction counts as [|c counts IH]; intros s n m; cbn [Scraper.scroll_loop];
    destruct (Nat.ltb_spec (Scraper.stable_count s) 3) as [Hlt|Hge];
    try discriminate; try (intros [= <-]; lia).
  intros Hexit. apply IH in Hexit.
  pose proof (observe_stable_count s c). lia.
Qed.

(** X21: a reading that differs from the one before puts the exit off by three
    more readings at least. *)
Lemma scroll_loop_after_change s c counts n m :
  Scraper.stable_count s < 3 -> c <> Scraper.last_count s ->
  Scraper.scroll_loop s (c :: counts) n = Some m -> n + 4 <= m.
Proof.
  intros Hlt Hne. cbn [Scraper.scroll_loop].
  destruct (Nat.ltb_spec (Scraper.stable_count s) 3); [|lia].
  rewrite (observe_changed s c Hne). intros Hexit.
  apply scroll_loop_readings in Hexit. cbn in Hexit. lia.
Qed.

(** C4 as stated fails: with the counts 3, 5, 5, 5, 8, 8, 8, 8 the loop
    does not exit after the seventh reading. *)
Lemma scroll_loop_not_after_seventh_reading :
  Scraper.scroll_loop Scraper.scroll_start [3; 5; 5; 5; 8; 8; 8; 8] 0 <> Some 7.
Proof. vm_compute. discriminate. Qed.

(** C4, amended: with the counts 3, 5, 5, 5, 8, 8, 8, 8 the loop exits after
    the eighth reading, the third one that repeats the reading before it,
    and is still running after each shorter run of these readings. *)
Theorem scroll_loop_exits_after_eighth_reading :
  Scraper.scroll_loop Scraper.scroll_start [3; 5; 5; 5; 8; 8; 8; 8] 0 = Some 8
  /\ Forall (fun k => Scraper.scroll_loop Scraper.scroll_start
                        (take k [3; 5; 5; 5; 8; 8; 8; 8]) 0 = None)
            (seq 0 8).
Proof.
  split; [reflexivity|].
  repeat (apply List.Forall_cons; [reflexivity|]). apply List.Forall_nil.
Qed.

(** ** The export store *)
Section Store.
Import Scraper.

Lemma load_existing_data_world path w data w1 :
  load_existing_data path w = Returns data w1 ->
  files w1 = files w /\ clock w1 = clock w /\ ticks w <= ticks w1.
Proof.
  unfold load_existing_data, bind, path_exists, try_except, read_json,
    _empty_export_data, bind, now_isoformat_Z, print, ret.
  destruct (files w !! path) as [[d|e]|] eqn:Hf; cbn; rewrite ?Hf; cbn.
  - intros [= <- <-]. auto.
  - destruct e; cbn; intros [= <- <-] || discriminate; cbn; auto.
  - intros [= <- <-]; cbn; auto.
Qed.

Lemma load_existing_data_stored path w data :
  files w !! path = Some (Export data) ->
  load_existing_data path w = Returns data w.
Proof.
  intros Hf. unfold load_existing_data, bind, path_exists, try_except, read_json.
  rewrite Hf. cbn. rewrite Hf. reflexivity.
Qed.

(** The run of [save_book_progressively] once the load has returned. *)
Lemma save_book_progressively_run book path w data w1 :
  load_existing_data path w = Returns data w1 ->
  save_book_progressively book path w
  = Returns tt
      (mkWorld
         (<[path := Export (mkExportData
                              (<["timestamp" := Some (clock w1 (ticks w1))]> (run data))
                              (upserted book (books data)))]> (files w1))
         (clock w1) (S (ticks w1)) (stdout w1 ++ [report book (books data)])).
Proof.
  intros Hload. unfold save_book_progressively, bind at 1. rewrite Hload.
  unfold upserted, report, bind, print, ret, now_isoformat_Z, write_json.
  destruct (decide _); cbn; reflexivity.
Qed.

Section Upsert.
Variable book : Book.
Abbreviation same_asin := (fun existing_book : BookDict => bd_asin existing_book = asin book).

Lemma asin_stored (stored : list BookDict) :
  asin book ∈ (list_to_set (bd_asin <$> stored) : gset string)
  <-> exists e, e ∈ stored /\ bd_asin e = asin book.
Proof.
  rewrite elem_of_list_to_set, list_elem_of_fmap.
  split; intros (e & H1 & H2); exists e; split; auto.
Qed.

Lemma upserted_found stored i e :
  list_find same_asin stored = Some (i, e) ->
  upserted book stored = <[i := book_to_dict book]> stored.
Proof.
  intros Hfind. unfold upserted. rewrite Hfind.
  apply list_find_Some in Hfind as (Hi & He & _).
  rewrite decide_True; [reflexivity|].
  apply asin_stored. exists e. split; [|exact He].
  eapply list_elem_of_lookup_2; eauto.
Qed.

Lemma upserted_absent stored :
  list_find same_asin stored = None ->
  upserted book stored = (stored ++ [book_to_dict book])%list.
Proof.
  intros Hfind. unfold upserted.
  rewrite decide_False; [reflexivity|].
  rewrite asin_stored. intros (e & He & Ha).
  apply list_find_None in Hfind. rewrite Forall_forall in Hfind.
  exact (Hfind e He Ha).
Qed.

Lemma list_find_upserted stored :
  exists i, list_find same_asin (upserted book stored) = Some (i, book_to_dict book)
            /\ upserted book stored = <[i := book_to_dict book]> (upserted book stored).
Proof.
  destruct (list_find same_asin stored) as [[i e]|] eqn:Hfind.
  - rewrite (upserted_found _ _ _ Hfind).
    apply list_find_Some in Hfind as (Hi & He & Hbefore).
    exists i. split.
    + apply list_find_Some. split; [|split].
      * apply list_lookup_insert_eq. eapply lookup_lt_Some; eauto.
      * reflexivity.
      * intros j y Hj Hlt. rewrite list_lookup_insert_ne in Hj by lia. eauto.
    + rewrite list_insert_insert_eq. reflexivity.
  - rewrite (upserted_absent _ Hfind).
    apply list_find_None in Hfind. rewrite Forall_forall in Hfind.
    exists (length stored). split.
    + apply list_find_Some. split; [|split].
      * apply list_lookup_middle. reflexivity.
      * reflexivity.
      * intros j y Hj Hlt. rewrite lookup_app_l in Hj by lia.
        apply Hfind. eapply list_elem_of_lookup_2; eauto.
    + rewrite insert_app_r_alt by lia. rewrite Nat.sub_diag. reflexivity.
Qed.

Lemma upserted_twice stored :
  upserted book (upserted book stored) = upserted book stored.
Proof.
  destruct (list_find_upserted stored) as (i & Hfind & Heq).
  rewrite (upserted_found _ _ _ Hfind). symmetry. exact Heq.
Qed.

Lemma upserted_others stored j e :
  stored !! j = Some e -> bd_asin e <> asin book ->
  upserted book stored !! j = Some e.
Proof.
  intros Hj Hne.
  destruct (list_find same_asin stored) as [[i x]|] eqn:Hfind.
  - rewrite (upserted_found _ _ _ Hfind).
    apply list_find_Some in Hfind as (Hi & Hx & _).
    rewrite list_lookup_insert_ne; [exact Hj|].
    intros ->. congruence.
  - rewrite (upserted_absent _ Hfind).
    rewrite lookup_app_l; [exact Hj|]. eapply lookup_lt_Some; eauto.
Qed.

(** The first entry with the asin of the book, when there is one. *)
Lemma upserted_first stored i e :
  stored !! i = Some e -> bd_asin e = asin book ->
  (forall j e', j < i -> stored !! j = Some e' -> bd_asin e' <> asin book) ->
  upserted book stored = <[i := book_to_dict book]> stored.
Proof.
  intros Hi He Hbefore. apply (upserted_found stored i e).
  apply list_find_Some. split; [exact Hi|]. split; [exact He|].
  intros j y Hj Hlt. eapply Hbefore; eauto.
Qed.

Lemma upserted_new stored :
  (forall e, e ∈ stored -> bd_asin e <> asin book) ->
  upserted book stored = (stored ++ [book_to_dict book])%list.
Proof.
  intros Hnone. apply upserted_absent, list_find_None, Forall_forall. exact Hnone.
Qed.
End Upsert.

(** C2: when the load returns a state, [save_book_progressively] returns
    and leaves at the path the loaded state with the book upserted: put
    at the index of the first entry with its asin, the length unchanged,
    when there is such an entry, and added at the end otherwise; every
    entry with another asin stays at its index; the timestamp of [run] is
    the reading of the clock made after the load. *)
Theorem save_book_progressively_upserts book path w data w1 :
  load_existing_data path w = Returns data w1 ->
  exists w2 stored,
    save_book_progressively book path w = Returns tt w2
    /\ files w2 !! path
       = Some (Export (mkExportData
                         (<["timestamp" := Some (clock w (ticks w1))]> (run data)) stored))
    /\ (forall i e,
           books data !! i = Some e -> bd_asin e = asin book ->
           (forall j e', j < i -> books data !! j = Some e' -> bd_asin e' <> asin book) ->
           stored = <[i := book_to_dict book]> (books data)
           /\ stored !! i = Some (book_to_dict book)
           /\ length stored = length (books data))
    /\ ((forall e, e ∈ books data -> bd_asin e <> asin book) ->
        stored = (books data ++ [book_to_dict book])%list)
    /\ (forall j e,
           books data !! j = Some e -> bd_asin e <> asin book -> stored !! j = Some e)
    /\ ticks w <= ticks w1 /\ ticks w2 = S (ticks w1).
Proof.
  intros Hload.
  destruct (load_existing_data_world _ _ _ _ Hload) as (Hfiles & Hclock & Hticks).
  eexists _, (upserted book (books data)).
  split; [apply save_book_progressively_run; exact Hload|].
  cbn [files ticks]. rewrite lookup_insert_eq, Hclock.
  split; [reflexivity|].
  split; [|split; [|split; [|split; [exact Hticks|reflexivity]]]].
  - intros i e Hi He Hbefore.
    rewrite (upserted_first book _ i e Hi He Hbefore).
    split; [reflexivity|]. split; [|apply length_insert].
    apply list_lookup_insert_eq. eapply lookup_lt_Some; eauto.
  - apply upserted_new.
  - apply upserted_others.
Qed.

(** C3: upserting the same book twice in a row stores the same books the
    second time as the first, hence as many, and the two stored [run]
    dictionaries differ at most in the timestamp. *)
Theorem save_book_progressively_twice book path w data w1 :
  load_existing_data path w = Returns data w1 ->
  exists w2 w3 first second,
    save_book_progressively book path w = Returns tt w2
    /\ save_book_progressively book path w2 = Returns tt w3
    /\ files w2 !! path = Some (Export first)
    /\ files w3 !! path = Some (Export second)
    /\ books second = books first
    /\ length (books second) = length (books first)
    /\ delete "timestamp" (run second) = delete "timestamp" (run first).
Proof.
  intros Hload.
  pose proof (save_book_progressively_run book _ _ _ _ Hload) as Hfirst.
  match type of Hfirst with
  | context [<[path := Export ?d]> _] => set (first := d) in *
  end.
  match type of Hfirst with _ = Returns tt ?w => set (w2 := w) in * end.
  assert (files w2 !! path = Some (Export first)) as Hstored
      by (unfold w2; cbn [files]; apply lookup_insert_eq).
  pose proof (save_book_progressively_run book _ _ _ _
                (load_existing_data_stored _ _ _ Hstored)) as Hsecond.
  eexists w2, _, first, _.
  split; [exact Hfirst|]. split; [exact Hsecond|]. split; [exact Hstored|].
  cbn [files]. split; [apply lookup_insert_eq|].
  cbn [books run]. unfold first at 1 3. cbn [books run].
  rewrite upserted_twice.
  split; [reflexivity|]. split; [reflexivity|].
  unfold first. cbn [run]. rewrite !delete_insert_eq. reflexivity.
Qed.

Lemma save_book_progressively_upserts_witness :
  load_existing_data "data/highlights.json" Samples.stored_world
  = Returns Samples.stored_export Samples.stored_world
  /\ exists w2 stored,
      save_book_progressively Samples.dune "data/highlights.json" Samples.stored_world
      = Returns tt w2
      /\ files w2 !! "data/highlights.json"
         = Some (Export (mkExportData {["timestamp" := Some (Samples.clock 0)]} stored))
      /\ stored = [Samples.emma_dict; book_to_dict Samples.dune].
Proof.
  assert (load_existing_data "data/highlights.json" Samples.stored_world
          = Returns Samples.stored_export Samples.stored_world) as Hload
      by (vm_compute; reflexivity).
  split; [exact Hload|].
  destruct (save_book_progressively_upserts Samples.dune _ _ _ _ Hload)
    as (w2 & stored & Hsave & Hfile & Hfound & _).
  exists w2, stored. split; [exact Hsave|]. split.
  - rewrite Hfile. reflexivity.
  - destruct (Hfound 1 Samples.dune_dict_before) as (-> & _).
    + reflexivity.
    + reflexivity.
    + intros [|j] e' Hj He'; [|lia]. injection He' as <-. discriminate.
    + reflexivity.
Defined.

Lemma save_book_progressively_twice_witness :
  load_existing_data "data/highlights.json" Samples.fresh_world
  = Returns (mkExportData {["timestamp" := Some (Samples.clock 0)]} [])
            (mkWorld ∅ Samples.clock 1 [])
  /\ exists w2 w3 first second,
      save_book_progressively Samples.dune "data/highlights.json" Samples.fresh_world
      = Returns tt w2
      /\ save_book_progressively Samples.dune "data/highlights.json" w2 = Returns tt w3
      /\ files w2 !! "data/highlights.json" = Some (Export first)
      /\ files w3 !! "data/highlights.json" = Some (Export second)
      /\ books second = books first.
Proof.
  assert (load_existing_data "data/highlights.json" Samples.fresh_world
          = Returns (mkExportData {["timestamp" := Some (Samples.clock 0)]} [])
                    (mkWorld ∅ Samples.clock 1 [])) as Hload
      by (vm_compute; reflexivity).
  split; [exact Hload|].
  destruct (save_book_progressively_twice Samples.dune _ _ _ _ Hload)
    as (w2 & w3 & first & second & H1 & H2 & H3 & H4 & H5 & _).
  exists w2, w3, first, second. auto.
Defined.

(** C9 as stated fails: when the file is missing, the load returns a
    fresh state with no diagnostic, the console being left as it was. *)
Lemma load_missing_file_prints_nothing :
  ~ (forall path w,
        files w !! path = None ->
        exists data w1,
          load_existing_data path w = Returns data w1
          /\ books data = []
          /\ stdout w1 <> stdout w).
Proof.
  intros Hclaim.
  destruct (Hclaim "data/highlights.json" Samples.fresh_world eq_refl)
    as (data & w1 & Hload & _ & Hout).
  vm_compute in Hload. injection Hload as _ <-.
  apply Hout. reflexivity.
Qed.

(** C9, amended: the load returns a fresh state, an empty list of books
    with the reading of the clock as timestamp, for a missing file, without
    printing, and for a file whose reading raises [OSError] or
    [JSONDecodeError], after printing one warning; it returns the stored
    state of a file that holds one. *)
Theorem load_existing_data_recovers path w :
  let fresh := mkExportData {["timestamp" := Some (clock w (ticks w))]} [] in
  match files w !! path with
  | None =>
      load_existing_data path w
      = Returns fresh (mkWorld (files w) (clock w) (S (ticks w)) (stdout w))
  | Some (Export data) => load_existing_data path w = Returns data w
  | Some (Unreadable (UnicodeDecodeError _)) => True
  | Some (Unreadable e) =>
      load_existing_data path w
      = Returns fresh
          (mkWorld (files w) (clock w) (S (ticks w))
                   (stdout w ++ ["Warning: Could not load existing file "
                                   ++ path ++ ": " ++ str e]))
  end.
Proof.
  intros fresh.
  unfold load_existing_data, bind, path_exists, try_except, read_json,
    _empty_export_data, bind, now_isoformat_Z, print, ret.
  destruct (files w !! path) as [[d|e]|] eqn:Hf; cbn; rewrite ?Hf; cbn.
  - destruct w; reflexivity.
  - destruct e; cbn; reflexivity || exact I.
  - reflexivity.
Qed.

(** C10: in the dictionary of a highlight, an empty note leaves no
    ["note"] key, which makes the dictionary, and the one of a book that
    holds the highlight, the same as with no note; the keys ["page"] and
    ["location"] are present exactly when the value is not [None], so that
    a page or a location 0 is kept. *)
Theorem book_to_dict_drops_empty_note_keeps_zero
        (i c t : string) (p l : option Z) (n : option string)
        (a ti au cv : string) (before after : list Highlight) :
  highlight_to_dict (mkHighlight i c t p l (Some "")) !! "note" = None
  /\ highlight_to_dict (mkHighlight i c t p l (Some ""))
     = highlight_to_dict (mkHighlight i c t p l None)
  /\ book_to_dict (mkBook a ti au cv (before ++ mkHighlight i c t p l (Some "") :: after))
     = book_to_dict (mkBook a ti au cv (before ++ mkHighlight i c t p l None :: after))
  /\ highlight_to_dict (mkHighlight i c t (Some 0%Z) l n) !! "page" = Some (JInt 0)
  /\ highlight_to_dict (mkHighlight i c t p (Some 0%Z) n) !! "location" = Some (JInt 0)
  /\ highlight_to_dict (mkHighlight i c t p l n) !! "page" = JInt <$> p
  /\ highlight_to_dict (mkHighlight i c t p l n) !! "location" = JInt <$> l
  /\ bd_highlights (book_to_dict (mkBook a ti au cv before))
     = highlight_to_dict <$> before.
Proof.
  assert (forall p' l', highlight_to_dict (mkHighlight i c t p' l' n) !! "page" = JInt <$> p')
    as Hpage.
  { intros p' l'. unfold highlight_to_dict; cbn.
    destruct p', l', n as [n'|]; try destruct (Py.truthy n'); cbn;
      repeat (rewrite lookup_insert_ne by discriminate);
      rewrite ?lookup_insert_eq, ?lookup_empty; reflexivity. }
  assert (forall p' l', highlight_to_dict (mkHighlight i c t p' l' n) !! "location" = JInt <$> l')
    as Hloc.
  { intros p' l'. unfold highlight_to_dict; cbn.
    destruct p', l', n as [n'|]; try destruct (Py.truthy n'); cbn;
      repeat (rewrite lookup_insert_ne by discriminate);
      rewrite ?lookup_insert_eq, ?lookup_empty; reflexivity. }
  split; [|split; [reflexivity|split]].
  - unfold highlight_to_dict; cbn.
    destruct p, l; cbn;
      repeat (rewrite lookup_insert_ne by discriminate); apply lookup_empty.
  - unfold book_to_dict; cbn. rewrite !fmap_app, !fmap_cons. reflexivity.
  - split; [apply Hpage|]. split; [apply Hloc|]. split; [apply Hpage|].
    split; [apply Hloc|reflexivity].
Qed.

End Store.

(** ** More on the extractor *)

(** *** Page and location numbers *)

Lemma digit_value_nonneg c : (0 <= Py.digit_value c)%Z.
Proof. unfold Py.digit_value. lia. Qed.

Lemma read_digits_nonneg s : forall acc n,
  (0 <= acc)%Z -> (0 <= fst (Py.read_digits acc n s))%Z.
Proof.
  induction s as [|c s IH]; intros acc n Hacc; cbn [Py.read_digits]; [exact Hacc|].
  destruct (Py.isdigit c); [|exact Hacc].
  apply IH. pose proof (digit_value_nonneg c). lia.
Qed.

Lemma search_number_nonneg label text v :
  Py.search_number label text = Some v -> (0 <= v)%Z.
Proof.
  induction text as [|c text IH].
  - cbn [Py.search_number].
    destruct (String.prefix label ""); [|discriminate].
    pose proof (read_digits_nonneg (Py.drop (String.length label) "") 0 0 (Z.le_refl 0)) as Hn.
    destruct (Py.read_digits 0 0 (Py.drop (String.length label) "")) as [w [|k]];
      [discriminate|]. intros [= <-]. exact Hn.
  - cbn [Py.search_number].
    destruct (String.prefix label (String c text)).
    + pose proof (read_digits_nonneg (Py.drop (String.length label) (String c text)) 0 0
                    (Z.le_refl 0)) as Hn.
      destruct (Py.read_digits 0 0 (Py.drop (String.length label) (String c text)))
        as [w [|k]]; [exact IH|]. intros [= <-]. exact Hn.
    + exact IH.
Qed.

Lemma read_digits_count s : forall acc n k v,
  Py.read_digits acc n s = (v, k) -> n <= k.
Proof.
  induction s as [|c s IH]; intros acc n k v; cbn [Py.read_digits].
  - intros [= _ <-]. lia.
  - destruct (Py.isdigit c).
    + intros H. apply IH in H. lia.
    + intros [= _ <-]. lia.
Qed.

Lemma read_digits_some_digit s acc v k :
  Py.read_digits acc 0 s = (v, S k) -> exists c s', s = String c s' /\ Py.isdigit c = true.
Proof.
  destruct s as [|c s']; cbn [Py.read_digits]; [discriminate|].
  destruct (Py.isdigit c) eqn:Hc; [eauto|discriminate].
Qed.

Lemma in_drop n : forall s c,
  In c (list_ascii_of_string (Py.drop n s)) -> In c (list_ascii_of_string s).
Proof.
  induction n as [|n IH]; intros [|a s] c; cbn; auto.
Qed.

Lemma search_number_needs_digit label text v :
  Py.search_number label text = Some v ->
  exists c, In c (list_ascii_of_string text) /\ Py.isdigit c = true.
Proof.
  assert (forall t, (exists w k, Py.read_digits 0 0 (Py.drop (String.length label) t) = (w, S k)) ->
                    exists c, In c (list_ascii_of_string t) /\ Py.isdigit c = true) as Hhere.
  { intros t (w & k & Hr). apply read_digits_some_digit in Hr as (c & s' & Hs & Hc).
    exists c. split; [|exact Hc]. apply (in_drop (String.length label)).
    rewrite Hs. left. reflexivity. }
  induction text as [|a text IH]; cbn [Py.search_number].
  - destruct (String.prefix label ""); [|discriminate].
    destruct (Py.read_digits 0 0 (Py.drop (String.length label) "")) as [w [|k]] eqn:Hr;
      [discriminate|]. intros _. apply Hhere. eauto.
  - destruct (String.prefix label (String a text)).
    + destruct (Py.read_digits 0 0 (Py.drop (String.length label) (String a text)))
        as [w [|k]] eqn:Hr.
      * intros H. destruct (IH H) as (c & Hin & Hc). exists c. split; [right; exact Hin|exact Hc].
      * intros _. apply Hhere. eauto.
    + intros H. destruct (IH H) as (c & Hin & Hc). exists c. split; [right; exact Hin|exact Hc].
Qed.

(** X7: a text without any digit has neither a page nor a location. *)
Theorem extract_page_location_without_digits text :
  (forall c, In c (list_ascii_of_string text) -> Py.isdigit c = false) ->
  PkgParser.extract_page_location text = (None, None)
  /\ FlatParser.extract_page_location text = (None, None).
Proof.
  intros Hnone.
  assert (forall label, Py.search_number label text = None) as Hs.
  { intros label. destruct (Py.search_number label text) as [v|] eqn:H; [|reflexivity].
    apply search_number_needs_digit in H as (c & Hin & Hc).
    rewrite (Hnone c Hin) in Hc. discriminate. }
  unfold PkgParser.extract_page_location, FlatParser.extract_page_location.
  rewrite !Hs. split; reflexivity.
Qed.

(** Reading back a number written in decimal. *)
Lemma read_digits_step c s acc n :
  Py.isdigit c = true ->
  Py.read_digits acc n (String c s)
  = Py.read_digits (10 * acc + Py.digit_value c)%Z (S n) s.
Proof. intros Hc. cbn [Py.read_digits]. rewrite Hc. reflexivity. Qed.

Lemma append_empty (s : string) : "" ++ s = s.
Proof. reflexivity. Qed.

Lemma append_String c (s t : string) : String c s ++ t = String c (s ++ t).
Proof. reflexivity. Qed.

Lemma read_digits_uint d : forall a n rest,
  no_digit_first rest ->
  Py.read_digits (Z.of_nat a) n (NilEmpty.string_of_uint d ++ rest)
  = (Z.of_nat (Nat.of_uint_acc d a), n + Decimal.nb_digits d).
Proof.
  induction d as [|d IHd|d IHd|d IHd|d IHd|d IHd|d IHd|d IHd|d IHd|d IHd|d IHd];
    intros a n rest Hrest;
    cbn [NilEmpty.string_of_uint Nat.of_uint_acc Decimal.nb_digits];
    rewrite ?append_empty, ?append_String.
  1: { destruct rest as [|c rest]; cbn [Py.read_digits]; [f_equal; lia|].
       cbn in Hrest. rewrite Hrest. f_equal. lia. }
  all: rewrite read_digits_step by reflexivity.
  all: rewrite Nat.tail_mul_spec.
  all: match goal with
       | |- Py.read_digits ?z _ _ = (Z.of_nat (Nat.of_uint_acc _ ?b), _) =>
           replace z with (Z.of_nat b)
             by (match goal with
                 | |- context [Py.digit_value ?c] =>
                     let v := eval vm_compute in (Py.digit_value c) in
                     change (Py.digit_value c) with v
                 end; lia)
       end.
  all: rewrite (IHd _ (S n) rest Hrest); f_equal; lia.
Qed.

Lemma decimal_digits n : exists k, Decimal.nb_digits (Nat.to_uint n) = S k.
Proof.
  destruct (Nat.to_uint n) as [|d|d|d|d|d|d|d|d|d|d] eqn:Hd; cbn; eauto.
  pose proof (DecimalNat.Unsigned.of_to n) as Hn. rewrite Hd in Hn. cbn in Hn. subst n.
  discriminate Hd.
Qed.

Lemma read_digits_decimal n rest :
  no_digit_first rest ->
  exists k, Py.read_digits 0 0 (decimal n ++ rest) = (Z.of_nat n, S k).
Proof.
  intros Hrest. unfold decimal.
  destruct (decimal_digits n) as (k & Hk). exists k.
  change (Py.read_digits 0) with (Py.read_digits (Z.of_nat 0)).
  rewrite (read_digits_uint (Nat.to_uint n) 0 0 rest Hrest), Hk.
  change (Nat.of_uint_acc (Nat.to_uint n) 0) with (Nat.of_uint (Nat.to_uint n)).
  rewrite DecimalNat.Unsigned.of_to. reflexivity.
Qed.

Lemma prefix_append (p : string) : forall s, String.prefix p (p ++ s) = true.
Proof.
  induction p as [|c p IH]; intros s; [destruct s; reflexivity|].
  rewrite append_String. cbn [String.prefix]. rewrite IH.
  destruct (ascii_dec c c); [reflexivity|contradiction].
Qed.

Lemma drop_append (p : string) : forall s, Py.drop (String.length p) (p ++ s) = s.
Proof.
  induction p as [|c p IH]; intros s; [reflexivity|].
  rewrite append_String. cbn [String.length Py.drop]. apply IH.
Qed.

(** The number that follows the label at the start of a text is found. *)
Lemma search_number_here label n rest :
  no_digit_first rest ->
  Py.search_number label (label ++ decimal n ++ rest) = Some (Z.of_nat n).
Proof.
  intros Hrest.
  destruct (read_digits_decimal n rest Hrest) as (k & Hk).
  destruct (label ++ decimal n ++ rest) as [|c t] eqn:Ht;
    cbn [Py.search_number]; rewrite <- Ht, prefix_append, drop_append, Hk; reflexivity.
Qed.

(** What stands before the first character that could start the label is
    passed over. *)
Lemma search_number_skip label c0 label' pre : forall text,
  label = String c0 label' ->
  (forall c, In c (list_ascii_of_string pre) -> c <> c0) ->
  Py.search_number label (pre ++ text) = Py.search_number label text.
Proof.
  intros text -> Hpre.
  induction pre as [|a pre IH]; [reflexivity|].
  rewrite append_String. cbn [Py.search_number String.prefix].
  destruct (ascii_dec c0 a) as [->|Hne].
  - exfalso. apply (Hpre a); [left; reflexivity|reflexivity].
  - apply IH. intros c Hc. apply Hpre. right. exact Hc.
Qed.

Lemma in_append c (a b : string) :
  In c (list_ascii_of_string (a ++ b)) <->
  In c (list_ascii_of_string a) \/ In c (list_ascii_of_string b).
Proof.
  induction a as [|x a IH]; [rewrite append_empty; cbn; tauto|].
  rewrite append_String. cbn. rewrite IH. tauto.
Qed.

Lemma uint_chars_digits d c :
  In c (list_ascii_of_string (NilEmpty.string_of_uint d)) -> Py.isdigit c = true.
Proof.
  induction d; cbn; intros H; try (destruct H as [<-|H]; [reflexivity|auto]).
  destruct H.
Qed.

Lemma append_assoc (a b c : string) : (a ++ b) ++ c = a ++ b ++ c.
Proof.
  induction a as [|x a IH]; [reflexivity|].
  rewrite !append_String, IH. reflexivity.
Qed.

Lemma no_digit_first_append (a b : string) :
  no_digit_first a -> no_digit_first b -> no_digit_first (a ++ b).
Proof. destruct a; [rewrite append_empty; auto|rewrite append_String; auto]. Qed.

(** X8: a header that gives the page and then the location, each written in
    decimal after its label with no more digits than [int] converts: both
    numbers are read back, whatever stands between and after them, as long
    as it does not start with a digit and the part in between has no
    capital L. *)
Theorem extract_page_location_header (p l : nat) (sep rest : string) :
  String.length (decimal p) <= Py.max_str_digits ->
  String.length (decimal l) <= Py.max_str_digits ->
  no_digit_first sep ->
  (forall c, In c (list_ascii_of_string sep) -> c <> "L"%char) ->
  no_digit_first rest ->
  let header := "Page " ++ decimal p ++ sep ++ "Location " ++ decimal l ++ rest in
  PkgParser.extract_page_location header = (Some (Z.of_nat p), Some (Z.of_nat l))
  /\ FlatParser.extract_page_location header = (Some (Z.of_nat p), Some (Z.of_nat l)).
Proof.
  intros _ _ Hsep HL Hrest header.
  assert (Py.search_number "Page " header = Some (Z.of_nat p)) as Hp.
  { apply (search_number_here "Page " p).
    apply no_digit_first_append; [exact Hsep|reflexivity]. }
  assert (Py.search_number "Location " header = Some (Z.of_nat l)) as Hl.
  { unfold header.
    replace ("Page " ++ decimal p ++ sep ++ "Location " ++ decimal l ++ rest)
      with (("Page " ++ decimal p ++ sep) ++ "Location " ++ decimal l ++ rest).
    - rewrite (search_number_skip "Location " "L"%char "ocation "); [|reflexivity|].
      + apply search_number_here. exact Hrest.
      + intros c Hc. apply in_append in Hc as [Hc|Hc].
        * cbn in Hc. intuition (subst; discriminate).
        * apply in_append in Hc as [Hc|Hc]; [|auto].
          apply uint_chars_digits in Hc. intros ->. discriminate Hc.
    - rewrite !append_assoc. reflexivity. }
  unfold PkgParser.extract_page_location, FlatParser.extract_page_location.
  rewrite Hp, Hl. split; reflexivity.
Qed.

Lemma extract_page_location_header_witness :
  PkgParser.extract_page_location "Page 42 | Location 283"
  = (Some 42%Z, Some 283%Z)
  /\ FlatParser.extract_page_location "Page 42 | Location 283"
     = (Some 42%Z, Some 283%Z).
Proof.
  apply (extract_page_location_header 42 283 " | " "").
  - apply Nat.leb_le. vm_compute. reflexivity.
  - apply Nat.leb_le. vm_compute. reflexivity.
  - reflexivity.
  - intros c Hc. cbn in Hc. intuition (subst; discriminate).
  - exact I.
Defined.

Lemma extract_page_location_without_digits_witness :
  PkgParser.extract_page_location "no numbers here" = (None, None)
  /\ FlatParser.extract_page_location "no numbers here" = (None, None).
Proof.
  apply extract_page_location_without_digits.
  intros c Hc. cbn in Hc.
  repeat (destruct Hc as [<-|Hc]; [reflexivity|]). destruct Hc.
Defined.

(** *** Colours *)

Section ExtractorFacts.
Import Bs4.
Variable BeautifulSoup : string -> PageElement.
Variable unescape : string -> string.

Lemma pkg_color_known classes :
  In (PkgParser.extract_color_from_classes classes) ["yellow"; "blue"; "pink"; "orange"].
Proof.
  induction classes as [|cls rest IH]; cbn [PkgParser.extract_color_from_classes].
  - left. reflexivity.
  - destruct (Py.endswith cls "-yellow"); [left; reflexivity|].
    destruct (Py.endswith cls "-blue"); [right; left; reflexivity|].
    destruct (Py.endswith cls "-pink"); [right; right; left; reflexivity|].
    destruct (Py.endswith cls "-orange"); [right; right; right; left; reflexivity|].
    exact IH.
Qed.

Lemma color_map_lookup k c :
  FlatParser.color_map !! k = Some c ->
  (k, c) ∈ [("kp-notebook-highlight-yellow", "yellow");
            ("kp-notebook-highlight-blue", "blue");
            ("kp-notebook-highlight-pink", "pink");
            ("kp-notebook-highlight-orange", "orange")].
Proof. unfold FlatParser.color_map. apply elem_of_list_to_map_2. Qed.

Lemma flat_color_known classes :
  In (FlatParser.extract_color_from_classes classes) ["yellow"; "blue"; "pink"; "orange"].
Proof.
  induction classes as [|cls rest IH]; cbn [FlatParser.extract_color_from_classes].
  - left. reflexivity.
  - destruct (FlatParser.color_map !! cls) as [c|] eqn:Hc; [|exact IH].
    apply color_map_lookup in Hc.
    repeat (apply elem_of_cons in Hc as [Hc|Hc];
            [injection Hc as _ ->; cbn; tauto|]).
    apply elem_of_nil in Hc. destruct Hc.
Qed.

Lemma pkg_block_highlight_color block h :
  PkgParser.block_highlight block = Some h ->
  exists classes, color h = PkgParser.extract_color_from_classes classes.
Proof.
  unfold PkgParser.block_highlight. intros H.
  destruct (negb _); [discriminate|].
  destruct (find block _) as [highlight_elem|]; [|discriminate].
  match type of H with
  | context [let '(_, _) := ?m in _] => destruct m as [pg loc]
  end.
  match type of H with
  | (if ?c then _ else _) = _ => destruct c
  end; [|discriminate].
  injection H as <-. cbn [color]. eauto.
Qed.

Lemma flat_element_highlight_color x :
  color (FlatParser.element_highlight unescape x)
  = FlatParser.extract_color_from_classes (get_class (elem x)).
Proof.
  unfold FlatParser.element_highlight.
  match goal with
  | |- context [let '(_, _) := ?m in _] => destruct m as [pg loc]
  end.
  reflexivity.
Qed.

(** X4: the colour of every highlight, of either parser, is one of the four. *)
Theorem highlight_colors_known html :
  Forall (fun h => In (color h) ["yellow"; "blue"; "pink"; "orange"])
         (PkgParser.parse_annotations_html BeautifulSoup html)
  /\ Forall (fun h => In (color h) ["yellow"; "blue"; "pink"; "orange"])
            (FlatParser.parse_annotations_html BeautifulSoup unescape html).
Proof.
  split; apply Forall_forall; intros h Hin.
  - unfold PkgParser.parse_annotations_html in Hin.
    destruct (find (BeautifulSoup html) _) as [container|];
      [|apply elem_of_nil in Hin; destruct Hin].
    apply list_elem_of_omap in Hin as (block & _ & Hb).
    apply pkg_block_highlight_color in Hb as (classes & ->).
    apply pkg_color_known.
  - unfold FlatParser.parse_annotations_html in Hin.
    apply list_elem_of_fmap in Hin as (x & -> & _).
    rewrite flat_element_highlight_color. apply flat_color_known.
Qed.

Lemma extract_page_location_nonneg text pg loc :
  PkgParser.extract_page_location text = (pg, loc) ->
  (forall v, pg = Some v -> (0 <= v)%Z) /\ (forall v, loc = Some v -> (0 <= v)%Z).
Proof.
  unfold PkgParser.extract_page_location. intros [= <- <-].
  split; intros v Hv; eapply search_number_nonneg; eauto.
Qed.

Lemma pkg_block_highlight_page block h v :
  PkgParser.block_highlight block = Some h -> page h = Some v -> (0 <= v)%Z.
Proof.
  unfold PkgParser.block_highlight. intros H.
  destruct (negb _); [discriminate|].
  destruct (find block _) as [highlight_elem|]; [|discriminate].
  match type of H with
  | context [let '(_, _) := ?m in _] => destruct m as [pg loc] eqn:Hpl
  end.
  match type of H with
  | (if ?c then _ else _) = _ => destruct c
  end; [|discriminate].
  injection H as <-. cbn [page]. intros ->.
  destruct (find block _) as [header_elem|] in Hpl; [|discriminate].
  apply extract_page_location_nonneg in Hpl as [Hp _]. auto.
Qed.

Lemma flat_element_highlight_numbers x :
  (forall v, page (FlatParser.element_highlight unescape x) = Some v -> (0 <= v)%Z)
  /\ (forall v, location (FlatParser.element_highlight unescape x) = Some v -> (0 <= v)%Z).
Proof.
  unfold FlatParser.element_highlight.
  match goal with
  | |- context [let '(_, _) := ?m in _] => destruct m as [pg loc] eqn:Hpl
  end.
  cbn [page location].
  change FlatParser.extract_page_location with PkgParser.extract_page_location in Hpl.
  apply extract_page_location_nonneg in Hpl. exact Hpl.
Qed.

(** X6: no page of a highlight is negative, nor a location of the flat
    parser. *)
Theorem highlight_numbers_nonneg html :
  Forall (fun h => match page h with Some v => (0 <= v)%Z | None => True end)
         (PkgParser.parse_annotations_html BeautifulSoup html)
  /\ Forall (fun h =>
               match page h with Some v => (0 <= v)%Z | None => True end
               /\ match location h with Some v => (0 <= v)%Z | None => True end)
            (FlatParser.parse_annotations_html BeautifulSoup unescape html).
Proof.
  split; apply Forall_forall; intros h Hin.
  - unfold PkgParser.parse_annotations_html in Hin.
    destruct (find (BeautifulSoup html) _) as [container|];
      [|apply elem_of_nil in Hin; destruct Hin].
    apply list_elem_of_omap in Hin as (block & _ & Hb).
    destruct (page h) as [v|] eqn:Hp; [|exact I].
    eapply pkg_block_highlight_page; eauto.
  - unfold FlatParser.parse_annotations_html in Hin.
    apply list_elem_of_fmap in Hin as (x & -> & _).
    destruct (flat_element_highlight_numbers x) as [Hp Hl].
    split.
    + destruct (page _) as [v|]; [apply Hp; reflexivity|exact I].
    + destruct (location _) as [v|]; [apply Hl; reflexivity|exact I].
Qed.

(** *** The book of the package parser *)

Lemma first_author_not_label ps :
  PkgParser.first_author ps = ""
  \/ (Py.startswith (PkgParser.first_author ps) "Your Kindle Notes For:" = false
      /\ Py.startswith (PkgParser.first_author ps) "Last accessed" = false).
Proof.
  induction ps as [|p_elem rest IH]; cbn [PkgParser.first_author]; [left; reflexivity|].
  destruct (Py.truthy (get_text_strip p_elem)); cbn [andb]; [|exact IH].
  destruct (Py.startswith (get_text_strip p_elem) "Your Kindle Notes For:") eqn:H1;
    cbn [negb andb]; [exact IH|].
  destruct (Py.startswith (get_text_strip p_elem) "Last accessed") eqn:H2;
    cbn [negb]; [exact IH|].
  right. split; assumption.
Qed.

(** X2: a book returned by the package parser has an asin and a title; its
    author is empty or a text that starts neither with the label nor with
    the access date; its highlights are those of [parse_annotations_html]
    on the same page, each with an id and a text. *)
Theorem pkg_book_well_formed html b :
  PkgParser.parse_book_from_annotations_page BeautifulSoup html = Some b ->
  asin b <> "" /\ title b <> ""
  /\ (author b = ""
      \/ (Py.startswith (author b) "Your Kindle Notes For:" = false
          /\ Py.startswith (author b) "Last accessed" = false))
  /\ highlights b = PkgParser.parse_annotations_html BeautifulSoup html
  /\ Forall (fun h => id h <> "" /\ text h <> "") (highlights b).
Proof.
  unfold PkgParser.parse_book_from_annotations_page. intros H.
  match type of H with
  | (if negb (Py.truthy ?a) || negb (Py.truthy ?t) then _ else _) = _ =>
      destruct (Py.truthy a) eqn:Ha; [destruct (Py.truthy t) eqn:Ht|]
  end; cbn [negb orb] in H; try discriminate.
  injection H as <-. cbn [asin title author highlights].
  split; [apply truthy_nonempty; exact Ha|].
  split; [apply truthy_nonempty; exact Ht|].
  split; [apply first_author_not_label|].
  split; [reflexivity|].
  apply Forall_forall. intros h Hh.
  apply list_elem_of_In in Hh. eapply pkg_highlights_valid; eauto.
Qed.

(** X1: every highlight of the package parser has an id and a text. *)
Theorem pkg_highlights_have_id_and_text html :
  Forall (fun h => id h <> "" /\ text h <> "")
         (PkgParser.parse_annotations_html BeautifulSoup html).
Proof.
  apply Forall_forall. intros h Hh.
  apply list_elem_of_In in Hh. eapply pkg_highlights_valid; eauto.
Qed.

(** *** The library *)

(** X3: every entry of the package parser has an asin, and the flat parser
    has an entry with the same asin: the package parser reads a part of the
    elements the flat parser reads. *)
Theorem pkg_library_entries_in_flat html :
  Forall (fun entry =>
            entry_asin entry <> ""
            /\ exists entry', In entry' (FlatParser.parse_book_library BeautifulSoup unescape html)
                              /\ entry_asin entry' = entry_asin entry)
         (PkgParser.parse_book_library BeautifulSoup html).
Proof.
  apply Forall_forall. intros entry Hin.
  unfold PkgParser.parse_book_library in Hin.
  apply list_elem_of_omap in Hin as (book_elem & Helem & Hentry).
  assert (In book_elem (descendants (BeautifulSoup html))
          /\ is_tag book_elem = true
          /\ with_class "kp-notebook-library-each-book" book_elem = true)
    as (Hd & Htag & Hclass).
  { destruct (find (BeautifulSoup html) _) as [library|] eqn:Hlib;
      apply list_elem_of_In, find_all_In in Helem as (Hd & Htag & Hp);
      apply andb_true_iff in Hp as [_ Hclass].
    - apply find_Some in Hlib as [Hlib _]. split; [|tauto].
      eapply descendants_trans; eauto.
    - tauto. }
  unfold PkgParser.library_entry in Hentry.
  destruct (Py.truthy (get_default book_elem "id" "")) eqn:Hid; [|discriminate].
  cbn [negb] in Hentry. injection Hentry as <-. cbn [entry_asin].
  split; [apply truthy_nonempty; exact Hid|].
  exists (FlatParser.library_entry unescape book_elem). split; [|reflexivity].
  unfold FlatParser.parse_book_library, select.
  apply list_elem_of_In, list_elem_of_fmap. exists book_elem. split; [reflexivity|].
  apply list_elem_of_In, find_all_In. tauto.
Qed.

End ExtractorFacts.

(** X5: the two colour functions agree on a class list in which the only
    classes that end like a colour class are the four of the table. *)
Theorem extract_color_from_classes_agree classes :
  (forall cls, In cls classes -> color_suffixed cls = true ->
               is_Some (FlatParser.color_map !! cls)) ->
  PkgParser.extract_color_from_classes classes
  = FlatParser.extract_color_from_classes classes.
Proof.
  induction classes as [|cls rest IH]; intros Hknown; [reflexivity|].
  cbn [PkgParser.extract_color_from_classes FlatParser.extract_color_from_classes].
  destruct (FlatParser.color_map !! cls) as [c|] eqn:Hc.
  - apply color_map_lookup in Hc.
    repeat (apply elem_of_cons in Hc as [Hc|Hc]; [injection Hc as -> ->; reflexivity|]).
    apply elem_of_nil in Hc. destruct Hc.
  - assert (color_suffixed cls = false) as Hs.
    { destruct (color_suffixed cls) eqn:Hs; [|reflexivity].
      destruct (Hknown cls (or_introl eq_refl) Hs) as [c Hc']. congruence. }
    unfold color_suffixed in Hs.
    apply orb_false_iff in Hs as [Hs Ho]. apply orb_false_iff in Hs as [Hs Hp].
    apply orb_false_iff in Hs as [Hy Hb].
    rewrite Hy, Hb, Hp, Ho. apply IH.
    intros cls' Hin. apply Hknown. right. exact Hin.
Qed.

Lemma extract_color_from_classes_agree_witness :
  PkgParser.extract_color_from_classes
    ["a-row"; "kp-notebook-highlight"; "kp-notebook-highlight-blue"]
  = FlatParser.extract_color_from_classes
      ["a-row"; "kp-notebook-highlight"; "kp-notebook-highlight-blue"].
Proof.
  apply extract_color_from_classes_agree.
  intros cls [<-|[<-|[<-|[]]]]; vm_compute; intros H; try discriminate H; eauto.
Defined.

(** ** More on the export store *)
Section StoreFacts.
Import Scraper.


Lemma upserted_asins book stored :
  bd_asin <$> upserted book stored
  = if decide (asin book ∈ (list_to_set (bd_asin <$> stored) : gset string))
    then bd_asin <$> stored
    else ((bd_asin <$> stored) ++ [asin book])%list.
Proof.
  unfold upserted. destruct (decide _) as [Hin|Hnot].
  - destruct (list_find _ stored) as [[i e]|] eqn:Hfind; [|reflexivity].
    apply list_find_Some in Hfind as (Hi & He & _).
    rewrite list_fmap_insert. apply list_insert_id.
    rewrite list_lookup_fmap, Hi. cbn. congruence.
  - rewrite fmap_app. reflexivity.
Qed.

Lemma upserted_asin_set book stored :
  (list_to_set (bd_asin <$> upserted book stored) : gset string)
  = {[asin book]} ∪ list_to_set (bd_asin <$> stored).
Proof.
  rewrite upserted_asins. destruct (decide _) as [Hin|Hnot].
  - apply set_eq. intros x. rewrite elem_of_union, elem_of_singleton.
    split; [auto|]. intros [->|Hx]; assumption.
  - rewrite list_to_set_app_L.
    apply set_eq. intros x.
    rewrite !elem_of_union, !elem_of_list_to_set, list_elem_of_singleton, elem_of_singleton.
    tauto.
Qed.

Lemma upserted_asins_NoDup book stored :
  NoDup (bd_asin <$> stored) -> NoDup (bd_asin <$> upserted book stored).
Proof.
  intros Hnd. rewrite upserted_asins. destruct (decide _) as [Hin|Hnot]; [exact Hnd|].
  apply NoDup_app. split; [exact Hnd|]. split; [|apply NoDup_singleton].
  intros x Hx Hx'. apply list_elem_of_singleton in Hx'. subst x.
  apply Hnot. apply elem_of_list_to_set. exact Hx.
Qed.

(** X10: after a save, a load of the path returns the stored state as it
    is, and the asin of the book is among the stored asins with all those
    that were there. *)
Theorem save_then_load book path w data w1 :
  load_existing_data path w = Returns data w1 ->
  exists w2 stored,
    save_book_progressively book path w = Returns tt w2
    /\ load_existing_data path w2 = Returns stored w2
    /\ get_existing_book_asins stored = {[asin book]} ∪ get_existing_book_asins data.
Proof.
  intros Hload.
  eexists _, _. split; [apply save_book_progressively_run; exact Hload|].
  split; [apply load_existing_data_stored; cbn [files]; apply lookup_insert_eq|].
  unfold get_existing_book_asins. cbn [books]. apply upserted_asin_set.
Qed.

(** X11: a save keeps the store free of repeated asins. *)
Theorem save_keeps_asins_unique book path w data w1 :
  load_existing_data path w = Returns data w1 ->
  NoDup (bd_asin <$> books data) ->
  exists w2 stored,
    save_book_progressively book path w = Returns tt w2
    /\ files w2 !! path = Some (Export stored)
    /\ NoDup (bd_asin <$> books stored).
Proof.
  intros Hload Hnd.
  eexists _, _. split; [apply save_book_progressively_run; exact Hload|].
  cbn [files]. split; [apply lookup_insert_eq|].
  cbn [books]. apply upserted_asins_NoDup. exact Hnd.
Qed.

Lemma load_existing_data_caught path w e :
  files w !! path = Some (Unreadable e) ->
  match e with UnicodeDecodeError _ => false | _ => true end = true ->
  load_existing_data path w
  = Returns (mkExportData {["timestamp" := Some (clock w (ticks w))]} [])
            (mkWorld (files w) (clock w) (S (ticks w))
                     (stdout w ++ ["Warning: Could not load existing file "
                                     ++ path ++ ": " ++ str e])).
Proof.
  intros Hf He.
  unfold load_existing_data, bind, path_exists, try_except, read_json,
    _empty_export_data, bind, now_isoformat_Z, print, ret.
  rewrite Hf. cbn. rewrite Hf. cbn. rewrite He. reflexivity.
Qed.

(** X12: a store whose file holds no JSON is replaced, and one that cannot
    be decoded is left alone: after a [JSONDecodeError] the save prints
    the warning and then that the book was added, and writes a store with
    the one book; after a [UnicodeDecodeError] the save raises it and
    changes nothing. *)
Theorem save_over_unreadable_store book path w e :
  files w !! path = Some (Unreadable e) ->
  match e with
  | JSONDecodeError _ =>
      exists w2,
        save_book_progressively book path w = Returns tt w2
        /\ files w2 !! path
           = Some (Export (mkExportData {["timestamp" := Some (clock w (S (ticks w)))]}
                                        [book_to_dict book]))
        /\ stdout w2
           = (stdout w
              ++ [("Warning: Could not load existing file " ++ path ++ ": " ++ str e)%string;
                  ("Added book '" ++ title book ++ "' with "
                     ++ pretty (length (highlights book)) ++ " highlights")%string])%list
  | UnicodeDecodeError _ => save_book_progressively book path w = Raises e w
  | OSError _ => True
  end.
Proof.
  intros Hf.
  destruct e as [msg|msg|msg].
  - exact I.
  - pose proof (load_existing_data_caught path w _ Hf eq_refl) as Hload.
    eexists. split; [apply (save_book_progressively_run _ _ _ _ _ Hload)|].
    cbn [files clock ticks stdout run books]. rewrite lookup_insert_eq.
    split; [rewrite insert_singleton_eq; reflexivity|].
    rewrite <- app_assoc. reflexivity.
  - unfold save_book_progressively, bind at 1.
    unfold load_existing_data, bind, path_exists, try_except, read_json.
    rewrite Hf. cbn. rewrite Hf. reflexivity.
Qed.

(** The saves of [save_each], one after the other, on a store that
    loads: the books end up upserted in order. *)
Lemma save_each_run path : forall (scraped : list Book) w data w1,
  scraped <> [] ->
  load_existing_data path w = Returns data w1 ->
  exists w2 run2,
    save_each scraped path w = Returns tt w2
    /\ files w2 !! path
       = Some (Export (mkExportData run2
                         (fold_left (fun stored book => upserted book stored)
                                    scraped (books data)))).
Proof.
  induction scraped as [|book rest IH]; intros w data w1 Hne Hload; [contradiction|].
  pose proof (save_book_progressively_run book _ _ _ _ Hload) as Hsave.
  match type of Hsave with _ = Returns tt ?w => set (w' := w) in * end.
  cbn [save_each]. unfold bind at 1. rewrite Hsave.
  destruct rest as [|book' rest'].
  - eexists w', _. split; [reflexivity|].
    unfold w'. cbn [files fold_left]. apply lookup_insert_eq.
  - assert (files w' !! path
            = Some (Export (mkExportData
                              (<["timestamp" := Some (clock w1 (ticks w1))]> (run data))
                              (upserted book (books data))))) as Hstored
        by (unfold w'; cbn [files]; apply lookup_insert_eq).
    destruct (IH w' _ w' ltac:(discriminate) (load_existing_data_stored _ _ _ Hstored))
      as (w2 & run2 & Hrun & Hfile).
    exists w2, run2. split; [exact Hrun|exact Hfile].
Qed.

Lemma fold_upserted_asins (scraped : list Book) : forall stored,
  (list_to_set (bd_asin <$> fold_left (fun stored book => upserted book stored) scraped stored)
   : gset string)
  = list_to_set (bd_asin <$> stored) ∪ list_to_set (asin <$> scraped).
Proof.
  induction scraped as [|book rest IH]; intros stored; cbn [fold_left].
  - cbn. apply set_eq. intros x. rewrite elem_of_union, elem_of_empty. tauto.
  - rewrite IH, upserted_asin_set. rewrite fmap_cons, list_to_set_cons.
    apply set_eq. intros x. rewrite !elem_of_union. tauto.
Qed.

Lemma fold_upserted_new (scraped : list Book) : forall stored,
  NoDup (asin <$> scraped) ->
  (forall book, book ∈ scraped -> asin book ∉ (list_to_set (bd_asin <$> stored) : gset string)) ->
  fold_left (fun stored book => upserted book stored) scraped stored
  = (stored ++ (book_to_dict <$> scraped))%list.
Proof.
  induction scraped as [|book rest IH]; intros stored Hnd Hnew; cbn [fold_left].
  - cbn. rewrite app_nil_r. reflexivity.
  - rewrite fmap_cons in Hnd. apply NoDup_cons in Hnd as [Hfirst Hnd].
    assert (upserted book stored = (stored ++ [book_to_dict book])%list) as ->.
    { unfold upserted. rewrite decide_False; [reflexivity|].
      apply Hnew. apply elem_of_cons. left. reflexivity. }
    rewrite IH; [rewrite fmap_cons, <- app_assoc; reflexivity|exact Hnd|].
    intros b Hb. rewrite fmap_app, list_to_set_app_L, elem_of_union.
    intros [Hin|Hin].
    + apply (Hnew b); [apply elem_of_cons; right; exact Hb|exact Hin].
    + cbn in Hin. apply elem_of_union in Hin as [Hin|Hin]; [|apply elem_of_empty in Hin; exact Hin].
      apply elem_of_singleton in Hin. apply Hfirst. rewrite <- Hin.
      apply list_elem_of_fmap. exists b. split; [reflexivity|exact Hb].
Qed.

Lemma export_to_json_run (scraped : list Book) path w :
  export_to_json scraped path w
  = Returns tt
      (mkWorld
         (<[path := Export (mkExportData {["timestamp" := Some (clock w (ticks w))]}
                                         (book_to_dict <$> scraped))]> (files w))
         (clock w) (S (ticks w))
         (stdout w ++ ["Exported " ++ pretty (length scraped) ++ " books to " ++ path])).
Proof. reflexivity. Qed.

(** X13: the saves the scraping loop makes lose no asin and record every book:
    the asins of the store afterwards are those it had and those of the
    books saved. *)
Theorem save_each_records_all path (scraped : list Book) w data w1 :
  scraped <> [] ->
  load_existing_data path w = Returns data w1 ->
  exists w2 stored,
    save_each scraped path w = Returns tt w2
    /\ files w2 !! path = Some (Export stored)
    /\ get_existing_book_asins stored
       = get_existing_book_asins data ∪ list_to_set (asin <$> scraped).
Proof.
  intros Hne Hload.
  destruct (save_each_run path scraped w data w1 Hne Hload) as (w2 & run2 & Hrun & Hfile).
  eexists w2, _. split; [exact Hrun|]. split; [exact Hfile|].
  unfold get_existing_book_asins. cbn [books]. apply fold_upserted_asins.
Qed.

(** X14: on a path without a file, saving books with distinct asins one by one
    stores the list of books that the batch export stores. *)
Theorem save_each_matches_export path (scraped : list Book) w :
  scraped <> [] ->
  files w !! path = None ->
  NoDup (asin <$> scraped) ->
  exists w2 w3 progressive batch,
    save_each scraped path w = Returns tt w2
    /\ export_to_json scraped path w = Returns tt w3
    /\ files w2 !! path = Some (Export progressive)
    /\ files w3 !! path = Some (Export batch)
    /\ books progressive = book_to_dict <$> scraped
    /\ books batch = book_to_dict <$> scraped.
Proof.
  intros Hne Hmissing Hnd.
  assert (load_existing_data path w
          = Returns (mkExportData {["timestamp" := Some (clock w (ticks w))]} [])
                    (mkWorld (files w) (clock w) (S (ticks w)) (stdout w))) as Hload.
  { unfold load_existing_data, bind, path_exists. rewrite Hmissing. reflexivity. }
  destruct (save_each_run path scraped w _ _ Hne Hload) as (w2 & run2 & Hrun & Hfile).
  eexists w2, _, _, _. split; [exact Hrun|].
  split; [apply export_to_json_run|]. split; [exact Hfile|].
  cbn [files]. split; [apply lookup_insert_eq|].
  cbn [books]. split; [|reflexivity].
  rewrite fold_upserted_new; [reflexivity|exact Hnd|].
  intros b _. cbn. apply not_elem_of_empty.
Qed.

(** X15: on a path that holds no file or a stored export, the batch export
    puts in its place the dictionaries of the given books, in order, under
    a fresh timestamp, whatever books were stored, and a load of the path
    returns just that. *)
Theorem export_to_json_replaces (scraped : list Book) path w :
  files w !! path = None \/ (exists old, files w !! path = Some (Export old)) ->
  exists w2,
    export_to_json scraped path w = Returns tt w2
    /\ files w2 !! path
       = Some (Export (mkExportData {["timestamp" := Some (clock w (ticks w))]}
                                    (book_to_dict <$> scraped)))
    /\ load_existing_data path w2
       = Returns (mkExportData {["timestamp" := Some (clock w (ticks w))]}
                               (book_to_dict <$> scraped)) w2.
Proof.
  intros _.
  eexists. split; [apply export_to_json_run|]. cbn [files].
  split; [apply lookup_insert_eq|].
  apply load_existing_data_stored; cbn [files]; apply lookup_insert_eq.
Qed.

End StoreFacts.

(** ** The stored dictionaries *)
Section DictFacts.
Import Scraper.

(** The dictionary of a highlight, key by key. *)
Lemma highlight_to_dict_lookup h k :
  highlight_to_dict h !! k
  = if decide (k = "id") then Some (JStr (id h))
    else if decide (k = "color") then Some (JStr (color h))
    else if decide (k = "text") then Some (JStr (text h))
    else if decide (k = "page") then JInt <$> page h
    else if decide (k = "location") then JInt <$> location h
    else if decide (k = "note") then JStr <$> kept_note (note h)
    else None.
Proof.
  unfold highlight_to_dict, kept_note.
  destruct (page h), (location h), (note h) as [n|]; try destruct (Py.truthy n);
    repeat (rewrite lookup_insert); rewrite lookup_empty;
    repeat case_decide; subst; try reflexivity; try congruence; discriminate.
Qed.

(** X16: the dictionaries of a book follow [HighlightDict]: the keys ["id"],
    ["color"] and ["text"] are always there, ["page"] and ["location"] when
    the value is not [None], ["note"] when the note is not empty, and there
    is no other key; the four fields of the book are copied and every
    highlight gives one dictionary. *)
Theorem book_to_dict_schema (b : Book) :
  bd_asin (book_to_dict b) = asin b
  /\ bd_title (book_to_dict b) = title b
  /\ bd_author (book_to_dict b) = author b
  /\ bd_cover_url (book_to_dict b) = cover_url b
  /\ Forall2
       (fun h d =>
          d !! "id" = Some (JStr (id h))
          /\ d !! "color" = Some (JStr (color h))
          /\ d !! "text" = Some (JStr (text h))
          /\ d !! "page" = JInt <$> page h
          /\ d !! "location" = JInt <$> location h
          /\ d !! "note" = JStr <$> kept_note (note h)
          /\ dom d ⊆ ({["id"; "color"; "text"; "page"; "location"; "note"]} : gset string))
       (highlights b) (bd_highlights (book_to_dict b)).
Proof.
  repeat (split; [reflexivity|]).
  cbn [book_to_dict bd_highlights]. apply Forall2_fmap_r, Forall_Forall2_diag, Forall_forall.
  intros h _.
  repeat (split; [rewrite highlight_to_dict_lookup; reflexivity|]).
  intros k Hk. apply elem_of_dom in Hk as [v Hv].
  rewrite highlight_to_dict_lookup in Hv.
  repeat case_decide; subst; try discriminate;
    rewrite !elem_of_union, !elem_of_singleton; tauto.
Qed.

Lemma fmap_Some_inj {A B} (f : A -> B) (x y : option A) :
  (forall a b, f a = f b -> a = b) -> f <$> x = f <$> y -> x = y.
Proof.
  intros Hinj. destruct x, y; cbn; intros H; try discriminate; [|reflexivity].
  injection H as H. f_equal. apply Hinj. exact H.
Qed.

(** X17: two highlights with the same dictionary differ at most by an empty
    note against no note. *)
Theorem highlight_to_dict_injective h1 h2 :
  highlight_to_dict h1 = highlight_to_dict h2 ->
  id h1 = id h2 /\ color h1 = color h2 /\ text h1 = text h2
  /\ page h1 = page h2 /\ location h1 = location h2
  /\ kept_note (note h1) = kept_note (note h2).
Proof.
  intros Heq.
  assert (forall k, highlight_to_dict h1 !! k = highlight_to_dict h2 !! k) as Hk
      by (intros k; rewrite Heq; reflexivity).
  pose proof (Hk "id") as Hid. pose proof (Hk "color") as Hcolor.
  pose proof (Hk "text") as Htext. pose proof (Hk "page") as Hpage.
  pose proof (Hk "location") as Hloc. pose proof (Hk "note") as Hnote.
  rewrite !highlight_to_dict_lookup in Hid, Hcolor, Htext, Hpage, Hloc, Hnote.
  cbn in Hid, Hcolor, Htext, Hpage, Hloc, Hnote.
  injection Hid as Hid. injection Hcolor as Hcolor. injection Htext as Htext.
  repeat split; try assumption.
  - apply (fmap_Some_inj JInt); [intros a b [= ->]; reflexivity|exact Hpage].
  - apply (fmap_Some_inj JInt); [intros a b [= ->]; reflexivity|exact Hloc].
  - apply (fmap_Some_inj JStr); [intros a b [= ->]; reflexivity|exact Hnote].
Qed.

Lemma highlight_to_dict_injective_witness :
  let h1 := mkHighlight "h1" "yellow" "Fear is the mind-killer." (Some 0%Z) None (Some "") in
  let h2 := mkHighlight "h1" "yellow" "Fear is the mind-killer." (Some 0%Z) None None in
  highlight_to_dict h1 = highlight_to_dict h2
  /\ kept_note (note h1) = kept_note (note h2).
Proof.
  intros h1 h2.
  assert (highlight_to_dict h1 = highlight_to_dict h2) as Heq by reflexivity.
  split; [exact Heq|].
  apply (highlight_to_dict_injective h1 h2 Heq).
Defined.

End DictFacts.

(** ** The listings of the service *)
Section AppFacts.
Import Scraper.

Lemma enriched_lookup book (highlight : gmap string JsonValue) k :
  App.enriched book highlight !! k
  = if decide (k = "author") then Some (JStr (bd_author book))
    else if decide (k = "title") then Some (JStr (bd_title book))
    else if decide (k = "asin") then Some (JStr (bd_asin book))
    else highlight !! k.
Proof.
  unfold App.enriched. rewrite !lookup_insert.
  repeat case_decide; subst; try reflexivity; congruence.
Qed.

(** X18: [list_highlights] returns the run, the number of stored highlights
    of all books, and a list made of one group per stored book, in the
    order of the books, each group holding one dictionary per stored
    highlight of the book, in order: the dictionary has the asin, title and
    author of the book and, under every other key, what the stored
    highlight has. *)
Theorem list_highlights_enriches (cached : ExportData) :
  let '(r, count, listed) := App.list_highlights cached in
  r = run cached
  /\ count = list_sum (length ∘ bd_highlights <$> books cached)
  /\ exists groups,
      listed = concat groups
      /\ Forall2
           (fun book group =>
              Forall2
                (fun highlight e =>
                   e !! "asin" = Some (JStr (bd_asin book))
                   /\ e !! "title" = Some (JStr (bd_title book))
                   /\ e !! "author" = Some (JStr (bd_author book))
                   /\ forall k, k <> "asin" -> k <> "title" -> k <> "author" ->
                                e !! k = highlight !! k)
                (bd_highlights book) group)
           (books cached) groups.
Proof.
  unfold App.list_highlights. split; [reflexivity|]. split.
  - induction (books cached) as [|book rest IH]; [reflexivity|].
    cbn [flat_map]. rewrite length_app, length_fmap, fmap_cons. cbn [list_sum compose].
    unfold compose in IH. rewrite IH. reflexivity.
  - exists ((fun book => App.enriched book <$> bd_highlights book) <$> books cached).
    split; [apply flat_map_concat_map|].
    apply Forall2_fmap_r, Forall_Forall2_diag, Forall_forall. intros book _.
    apply Forall2_fmap_r, Forall_Forall2_diag, Forall_forall. intros highlight _.
    repeat (split; [rewrite enriched_lookup; reflexivity|]).
    intros k H1 H2 H3. rewrite enriched_lookup.
    repeat case_decide; congruence.
Qed.

End AppFacts.

(** ** More on the scroll loop *)
Section ScrollFacts.
Import Scraper.

Lemma tracks_start : tracks scroll_start [0].
Proof.
  split; [reflexivity|]. intros j. cbn. split.
  - intros Hj. assert (j = 0) as -> by lia. split; [lia|reflexivity].
  - intros [Hj _]. lia.
Qed.

Lemma tracks_observe s values c :
  tracks s values -> tracks (observe s c) (c :: values).
Proof.
  intros [Hhead Hstreak].
  destruct (Nat.eq_dec c (last_count s)) as [->|Hne].
  - rewrite observe_repeated by reflexivity. split; [reflexivity|].
    intros [|j]; cbn [stable_count last_count length].
    + split; [intros _; split; [lia|reflexivity]|lia].
    + rewrite Nat.add_1_r. split.
      * intros Hj. apply le_S_n in Hj. apply Hstreak in Hj as [Hlen Htake].
        split; [lia|]. cbn [take replicate]. f_equal. exact Htake.
      * intros [Hlen Htake]. apply le_n_S. apply Hstreak.
        split; [lia|]. cbn [take replicate] in Htake. injection Htake as Htake. exact Htake.
  - rewrite observe_changed by exact Hne. split; [reflexivity|].
    intros [|j]; cbn [stable_count last_count length].
    + split; [intros _; split; [lia|reflexivity]|lia].
    + split; [lia|]. intros [Hlen Htake]. exfalso.
      cbn [take replicate] in Htake. injection Htake as Htake.
      destruct values as [|v values]; [cbn in Hlen; lia|].
      cbn in Hhead, Htake. injection Hhead as ->. injection Htake as Hv _.
      apply Hne. symmetry. exact Hv.
Qed.

Lemma tracks_fold readings : forall s values,
  tracks s values -> tracks (fold_left observe readings s) (rev readings ++ values).
Proof.
  induction readings as [|c rest IH]; intros s values Ht; [exact Ht|].
  cbn [fold_left rev]. rewrite <- app_assoc. apply IH, tracks_observe, Ht.
Qed.

(** The loop against the state after each reading. *)
Lemma scroll_loop_exit counts : forall s n m,
  scroll_loop s counts n = Some m ->
  exists k, m = n + k /\ k <= length counts
            /\ 3 <= stable_count (fold_left observe (take k counts) s).
Proof.
  induction counts as [|c rest IH]; intros s n m; cbn [scroll_loop];
    destruct (Nat.ltb_spec (stable_count s) 3) as [Hlt|Hge]; try discriminate.
  - intros [= <-]. exists 0. cbn. split; [lia|]. split; [lia|exact Hge].
  - intros Hexit. apply IH in Hexit as (k & -> & Hk & Hstable).
    exists (S k). cbn [take fold_left length]. split; [lia|]. split; [lia|exact Hstable].
  - intros [= <-]. exists 0. cbn. split; [lia|]. split; [lia|exact Hge].
Qed.

Lemma scroll_loop_exits counts : forall s n k,
  k <= length counts ->
  3 <= stable_count (fold_left observe (take k counts) s) ->
  exists m, scroll_loop s counts n = Some m /\ m <= n + k.
Proof.
  induction counts as [|c rest IH]; intros s n k Hk Hstable; cbn [scroll_loop];
    destruct (Nat.ltb_spec (stable_count s) 3) as [Hlt|Hge];
    try (exists n; split; [reflexivity|lia]).
  - cbn in Hk. assert (k = 0) as -> by lia. cbn in Hstable. lia.
  - destruct k as [|k]; [cbn in Hstable; lia|].
    cbn [take fold_left length] in Hk, Hstable.
    destruct (IH (observe s c) (S n) k ltac:(lia) Hstable) as (m & Hm & Hle).
    exists m. split; [exact Hm|lia].
Qed.

Lemma four_equal_streak s values :
  tracks s values ->
  (3 <= stable_count s <-> exists c, take 4 values = [c; c; c; c]).
Proof.
  intros [Hhead Hstreak]. split.
  - intros H3. apply Hstreak in H3 as [_ Htake].
    exists (last_count s). exact Htake.
  - intros [c' Htake]. apply Hstreak.
    destruct values as [|v0 [|v1 [|v2 [|v3 values]]]]; try discriminate.
    cbn in Hhead. injection Hhead as <-. injection Htake as -> -> -> ->.
    split; [cbn; lia|reflexivity].
Qed.

(** X19: the loop stops only on a stable count: when it exits, after [m]
    readings, it has made three readings at least, and the last four values
    it has seen, the initial 0 counting as one, are equal. *)
Theorem scroll_loop_exit_is_stable counts m :
  scroll_loop scroll_start counts 0 = Some m ->
  3 <= m /\ m <= length counts
  /\ exists c, take 4 (seen (take m counts)) = [c; c; c; c].
Proof.
  intros Hexit.
  pose proof (scroll_loop_readings _ _ _ _ Hexit) as Hmin. cbn in Hmin.
  apply scroll_loop_exit in Hexit as (k & -> & Hk & Hstable). cbn [Nat.add].
  split; [lia|]. split; [exact Hk|].
  apply (four_equal_streak _ _ (tracks_fold (take k counts) _ _ tracks_start)).
  exact Hstable.
Qed.

(** X20: the loop stops on a stable count: once the last four values seen
    after [k] readings are equal, it has exited, after [k] readings at
    most. *)
Theorem scroll_loop_stops_when_stable counts k c :
  k <= length counts ->
  take 4 (seen (take k counts)) = [c; c; c; c] ->
  exists m, scroll_loop scroll_start counts 0 = Some m /\ m <= k.
Proof.
  intros Hk Hseen.
  apply (scroll_loop_exits counts scroll_start 0 k Hk).
  apply (four_equal_streak _ _ (tracks_fold (take k counts) _ _ tracks_start)).
  exists c. exact Hseen.
Qed.

Lemma scroll_loop_exit_is_stable_witness :
  scroll_loop scroll_start [3; 5; 5; 5; 8; 8; 8; 8] 0 = Some 8
  /\ 3 <= 8 /\ 8 <= length [3; 5; 5; 5; 8; 8; 8; 8]
  /\ exists c, take 4 (seen (take 8 [3; 5; 5; 5; 8; 8; 8; 8])) = [c; c; c; c].
Proof.
  assert (scroll_loop scroll_start [3; 5; 5; 5; 8; 8; 8; 8] 0 = Some 8) as Hexit
      by reflexivity.
  split; [exact Hexit|].
  exact (scroll_loop_exit_is_stable _ _ Hexit).
Defined.

Lemma scroll_loop_stops_when_stable_witness :
  exists m, scroll_loop scroll_start [0; 0; 0; 7] 0 = Some m /\ m <= 3.
Proof.
  apply (scroll_loop_stops_when_stable [0; 0; 0; 7] 3 0).
  - cbn. lia.
  - reflexivity.
Defined.

End ScrollFacts.

(** ** The properties above at sample inputs *)
Section Witnesses.
Import Scraper.

Lemma pkg_book_well_formed_witness :
  PkgParser.parse_book_from_annotations_page Samples.BeautifulSoup Samples.book_page_html
  = Some (mkBook "B00X57B4JG" "Dune" "Frank Herbert" "" [])
  /\ asin (mkBook "B00X57B4JG" "Dune" "Frank Herbert" "" []) <> "".
Proof.
  assert (PkgParser.parse_book_from_annotations_page Samples.BeautifulSoup
            Samples.book_page_html
          = Some (mkBook "B00X57B4JG" "Dune" "Frank Herbert" "" [])) as Hbook
      by (vm_compute; reflexivity).
  split; [exact Hbook|].
  exact (proj1 (pkg_book_well_formed Samples.BeautifulSoup _ _ Hbook)).
Defined.

Lemma stored_world_loads :
  load_existing_data "data/highlights.json" Samples.stored_world
  = Returns Samples.stored_export Samples.stored_world.
Proof. vm_compute. reflexivity. Defined.

Lemma save_then_load_witness :
  exists w2 stored,
    save_book_progressively Samples.dune "data/highlights.json" Samples.stored_world
    = Returns tt w2
    /\ load_existing_data "data/highlights.json" w2 = Returns stored w2
    /\ get_existing_book_asins stored
       = {["B00X57B4JG"]} ∪ get_existing_book_asins Samples.stored_export.
Proof.
  destruct (save_then_load Samples.dune _ _ _ _ stored_world_loads)
    as (w2 & stored & Hsave & Hload & Hasins).
  exists w2, stored. auto.
Defined.

Lemma save_keeps_asins_unique_witness :
  NoDup (bd_asin <$> books Samples.stored_export)
  /\ exists w2 stored,
      save_book_progressively Samples.dune "data/highlights.json" Samples.stored_world
      = Returns tt w2
      /\ files w2 !! "data/highlights.json" = Some (Export stored)
      /\ NoDup (bd_asin <$> books stored).
Proof.
  assert (NoDup (bd_asin <$> books Samples.stored_export)) as Hnd.
  { cbn. apply NoDup_cons. split.
    - intros Hin. apply list_elem_of_singleton in Hin. discriminate Hin.
    - apply NoDup_singleton. }
  split; [exact Hnd|].
  exact (save_keeps_asins_unique Samples.dune _ _ _ _ stored_world_loads Hnd).
Defined.

Lemma save_over_unreadable_store_witness :
  exists w2,
    save_book_progressively Samples.dune "data/highlights.json" Samples.corrupt_world
    = Returns tt w2
    /\ files w2 !! "data/highlights.json"
       = Some (Export (mkExportData {["timestamp" := Some (Samples.clock 1)]}
                                    [book_to_dict Samples.dune])).
Proof.
  destruct (save_over_unreadable_store Samples.dune "data/highlights.json"
              Samples.corrupt_world _ eq_refl) as (w2 & Hsave & Hfile & _).
  exists w2. split; [exact Hsave|exact Hfile].
Defined.

Lemma save_each_records_all_witness :
  exists w2 stored,
    save_each [Samples.dune; Samples.emma] "data/highlights.json" Samples.stored_world
    = Returns tt w2
    /\ files w2 !! "data/highlights.json" = Some (Export stored)
    /\ get_existing_book_asins stored
       = get_existing_book_asins Samples.stored_export
         ∪ list_to_set ["B00X57B4JG"; "B000JQUT8S"].
Proof.
  destruct (save_each_records_all "data/highlights.json" [Samples.dune; Samples.emma]
              _ _ _ ltac:(discriminate) stored_world_loads)
    as (w2 & stored & Hrun & Hfile & Hasins).
  exists w2, stored. auto.
Defined.

Lemma save_each_matches_export_witness :
  exists w2 w3 progressive batch,
    save_each [Samples.dune; Samples.emma] "data/highlights.json" Samples.fresh_world
    = Returns tt w2
    /\ export_to_json [Samples.dune; Samples.emma] "data/highlights.json" Samples.fresh_world
       = Returns tt w3
    /\ files w2 !! "data/highlights.json" = Some (Export progressive)
    /\ files w3 !! "data/highlights.json" = Some (Export batch)
    /\ books progressive = books batch.
Proof.
  assert (NoDup (asin <$> [Samples.dune; Samples.emma])) as Hnd.
  { cbn. apply NoDup_cons. split.
    - intros Hin. apply list_elem_of_singleton in Hin. discriminate Hin.
    - apply NoDup_singleton. }
  destruct (save_each_matches_export "data/highlights.json" [Samples.dune; Samples.emma]
              Samples.fresh_world ltac:(discriminate) eq_refl Hnd)
    as (w2 & w3 & progressive & batch & H1 & H2 & H3 & H4 & H5 & H6).
  exists w2, w3, progressive, batch. rewrite H5, H6. auto.
Defined.

Lemma export_to_json_replaces_witness :
  exists w2,
    export_to_json [Samples.dune] "data/highlights.json" Samples.stored_world
    = Returns tt w2
    /\ files w2 !! "data/highlights.json"
       = Some (Export (mkExportData {["timestamp" := Some (Samples.clock 0)]}
                                    [book_to_dict Samples.dune])).
Proof.
  destruct (export_to_json_replaces [Samples.dune] "data/highlights.json"
              Samples.stored_world)
    as (w2 & Hrun & Hfile & _).
  - right. exists Samples.stored_export. reflexivity.
  - exists w2. split; [exact Hrun|exact Hfile].
Defined.

Lemma scroll_loop_after_change_witness :
  scroll_loop (mkScrollState 5 2) [8; 8; 8; 8] 4 = Some 8 /\ 4 + 4 <= 8.
Proof.
  assert (scroll_loop (mkScrollState 5 2) [8; 8; 8; 8] 4 = Some 8) as Hexit by reflexivity.
  split; [exact Hexit|].
  apply (scroll_loop_after_change (mkScrollState 5 2) 8 [8; 8; 8] 4 8).
  - cbn. lia.
  - cbn. discriminate.
  - exact Hexit.
Defined.

End Witnesses.
